(** * script.py: CPU / AMD GPU telemetry monitor

    A shallow embedding of [src/script.py]: the GPU metrics adapter
    [get_amd_gpu_stats], the sampling loop [monitor_system] and the
    orchestrating [main], followed by the properties of the specification.

    Conventions of the embedding.
    - Python floats are modelled by exact rationals ([Q]); rounding is not
      modelled.
    - The machine is a [world]: the wall clock and the chronological log of
      the effectful calls the script made (writes to stdout, library calls,
      sleeps, the prompt, the exported file).
    - Everything the script cannot control is an input of the model: whether
      [import pyadl] succeeded, what psutil and the ADL library answer on each
      tick and how long the GPU read takes, the answer typed at the prompt,
      and the rendering of floats and of the local time.
    - Effectful code lives in the monad [M]: state passing over [world] with
      Python exceptions. *)

From Stdlib Require Import Bool Arith Lia List String Ascii.
From Stdlib Require Import ZArith QArith Qround Lqa DecimalString.
Import ListNotations.

Local Open Scope string_scope.
Local Open Scope Q_scope.

(** ** Python values and exceptions *)

(** The classes of [Exception] the script tells apart.  A library call can
    fail with any instance of [Exception]; [AttributeError] is the one the
    adapter treats as "this reading is not supported", [KeyError] is what a
    column lookup in a frame without that column raises.  The requests to
    leave the interpreter that are no instance of [Exception]
    (KeyboardInterrupt, SystemExit) are no failure of a call and are not
    modelled. *)
Inductive exc_class : Type :=
| AttributeError
| KeyError
| OtherException (name : string).

Record exc : Type := mkExc { exc_cls : exc_class; exc_msg : string }.

(** [isinstance(e, AttributeError)] *)
Definition is_AttributeError (e : exc) : bool :=
  match exc_cls e with
  | AttributeError => true
  | _ => false
  end.

(** [str(e)] *)
Definition str_exc (e : exc) : string := exc_msg e.

(** The answer of a call into a library: a value or a raised exception. *)
Inductive reply (A : Type) : Type :=
| Gives (a : A)
| Throws (e : exc).
Arguments Gives {A} a.
Arguments Throws {A} e.

(** What running a piece of the script does: it returns, it raises, or (for
    the model of the loop only) the fuel of the model ran out. *)
Inductive outcome (A : Type) : Type :=
| Returns (a : A)
| Raises (e : exc)
| OutOfFuel.
Arguments Returns {A} a.
Arguments Raises {A} e.
Arguments OutOfFuel {A}.

Definition outcome_of_reply {A} (r : reply A) : outcome A :=
  match r with
  | Gives a => Returns a
  | Throws e => Raises e
  end.

(** ** The vendor library (pyadl), as the script sees it *)

(** One ADL device: the answer of each of the four methods the script calls.
    A method that the device object does not have raises [AttributeError]. *)
Record ADLDevice : Type := mkDevice {
  getCurrentUsage : reply Q;
  getCurrentTemperature : reply Q;
  getCurrentPower : reply Q;
  getCurrentPowerValue : reply Q
}.

Record ADLManager : Type := mkManager {
  getDevices : reply (list ADLDevice)
}.

(** The state of the library at one call of the adapter:
    [pyadl.ADLManager.getInstance()]. *)
Record pyadl : Type := mkPyadl {
  getInstance : reply ADLManager
}.

(** ** The world *)

Inductive event : Type :=
| Print (text : string)                   (* bytes written to stdout *)
| CpuPercent (interval : Q)               (* psutil.cpu_percent(interval=..) *)
| AdlGetInstance                          (* pyadl.ADLManager.getInstance() *)
| AdlGetDevices                           (* adl_manager.getDevices() *)
| DeviceCall (index : nat) (method : string) (* devices[index].method() *)
| Strftime (format : string) (t : Q)      (* time.strftime(format) at clock t *)
| Sleep (seconds : Q)                     (* time.sleep(seconds) *)
| Input (prompt : string)                 (* input(prompt) *)
| ToCsv (filename : string) (lines : list string). (* df.to_csv(filename) *)

Record world : Type := mkWorld {
  now : Q;              (* time.time() *)
  log : list event      (* oldest first *)
}.

(** ** The monad of the script *)

Definition M (A : Type) : Type := world -> outcome A * world.

Definition ret {A} (a : A) : M A := fun w => (Returns a, w).

Definition bind {A B} (m : M A) (f : A -> M B) : M B :=
  fun w =>
    match m w with
    | (Returns a, w') => f a w'
    | (Raises e, w') => (Raises e, w')
    | (OutOfFuel, w') => (OutOfFuel, w')
    end.

Declare Scope py_scope.
Delimit Scope py_scope with py.
Notation "x <- c1 ;; c2" := (bind c1 (fun x => c2))
  (at level 100, c1 at next level, right associativity) : py_scope.
Notation "c1 ;; c2" := (bind c1 (fun _ => c2))
  (at level 100, right associativity) : py_scope.
Local Open Scope py_scope.

Definition raise {A} (e : exc) : M A := fun w => (Raises e, w).

(** [try: body except <class>: handler], the class given by [catches]. *)
Definition try_except {A} (catches : exc -> bool) (body : M A)
    (handler : exc -> M A) : M A :=
  fun w =>
    match body w with
    | (Raises e, w') => if catches e then handler e w' else (Raises e, w')
    | r => r
    end.

(** [except AttributeError:] *)
Definition try_except_AttributeError {A} (body : M A) (handler : M A) : M A :=
  try_except is_AttributeError body (fun _ => handler).

(** [except Exception as e:] every failure of the model is an [Exception]. *)
Definition try_except_Exception {A} (body : M A) (handler : exc -> M A) : M A :=
  try_except (fun _ => true) body handler.

Definition emit (ev : event) : M unit :=
  fun w => (Returns tt, mkWorld (now w) (log w ++ [ev])).

Definition elapse (d : Q) : M unit :=
  fun w => (Returns tt, mkWorld (now w + d) (log w)).

(** An external call: it is logged, then it returns or raises. *)
Definition call {A} (ev : event) (r : reply A) : M A :=
  emit ev ;; (fun w => (outcome_of_reply r, w)).

Definition nl : string := String (ascii_of_nat 10) EmptyString.
Definition cr : string := String (ascii_of_nat 13) EmptyString.

(** [print(s)] writes [s] and a newline; [print(s, end=...)] writes [s] only. *)
Definition print (s : string) : M unit := emit (Print (s ++ nl)).
Definition print_noend (s : string) : M unit := emit (Print s).

(** [time.time()] *)
Definition time_time : M Q := fun w => (Returns (now w), w).

(** [time.sleep(d)] *)
Definition time_sleep (d : Q) : M unit := emit (Sleep d) ;; elapse d.

(** ** get_amd_gpu_stats (script.py, lines 12-57) *)

(** The [stats] dictionary of the adapter. *)
Record stats : Type := mkStats {
  utilization : option Q;
  temperature : option Q;
  power : option Q
}.

Definition set_utilization (s : stats) (v : Q) : stats :=
  mkStats (Some v) (temperature s) (power s).
Definition set_temperature (s : stats) (v : Q) : stats :=
  mkStats (utilization s) (Some v) (power s).
Definition set_power (s : stats) (v : Q) : stats :=
  mkStats (utilization s) (temperature s) (Some v).

Definition gpu_reading : Type := (option Q * option Q * option Q)%type.

Definition all_absent : gpu_reading := (None, None, None).

Definition gpu_error_message (e : exc) : string :=
  nl ++ "Error al leer GPU AMD: " ++ str_exc e.

Definition get_amd_gpu_stats (amd_gpu_available : bool) (lib : pyadl)
  : M gpu_reading :=
  if negb amd_gpu_available then ret all_absent
  else
    try_except_Exception
      (adl_manager <- call AdlGetInstance (getInstance lib) ;;
       devices <- call AdlGetDevices (getDevices adl_manager) ;;
       match devices with
       | [] => ret all_absent
       | gpu :: _ =>
         let stats0 := mkStats None None None in
         stats1 <- try_except_AttributeError
                     (v <- call (DeviceCall 0 "getCurrentUsage")
                                (getCurrentUsage gpu) ;;
                      ret (set_utilization stats0 v))
                     (ret stats0) ;;
         stats2 <- try_except_AttributeError
                     (v <- call (DeviceCall 0 "getCurrentTemperature")
                                (getCurrentTemperature gpu) ;;
                      ret (set_temperature stats1 v))
                     (ret stats1) ;;
         stats3 <- try_except_AttributeError
                     (v <- call (DeviceCall 0 "getCurrentPower")
                                (getCurrentPower gpu) ;;
                      ret (set_power stats2 v))
                     (try_except_AttributeError
                        (v <- call (DeviceCall 0 "getCurrentPowerValue")
                                   (getCurrentPowerValue gpu) ;;
                         ret (set_power stats2 (v / 1000)))
                        (ret stats2)) ;;
         ret (utilization stats3, temperature stats3, power stats3)
       end)
      (fun e => print (gpu_error_message e) ;; ret all_absent).

(** ** Rendering of numbers and of the local time *)

(** [time.localtime()]: the broken-down local time. *)
Record struct_time : Type := mkTime {
  tm_year : nat; tm_mon : nat; tm_mday : nat;
  tm_hour : nat; tm_min : nat; tm_sec : nat
}.

Definition decimal (n : nat) : string :=
  NilEmpty.string_of_uint (Nat.to_uint n).

(** A two-digit, zero-padded field ([%H], [%M], [%S], [%m], [%d]). *)
Definition pad2 (n : nat) : string :=
  if (n <? 10)%nat then "0" ++ decimal n else decimal n.

(** ["%H:%M:%S"] *)
Definition strftime_HMS (tm : struct_time) : string :=
  pad2 (tm_hour tm) ++ ":" ++ pad2 (tm_min tm) ++ ":" ++ pad2 (tm_sec tm).

(** ["%Y%m%d_%H%M%S"] (the year is written in full) *)
Definition strftime_Ymd_HMS (tm : struct_time) : string :=
  decimal (tm_year tm) ++ pad2 (tm_mon tm) ++ pad2 (tm_mday tm) ++ "_" ++
  pad2 (tm_hour tm) ++ pad2 (tm_min tm) ++ pad2 (tm_sec tm).

(** [str.lower()] on the ASCII letters.  The other bytes, among them those
    of the encoding of a non-ASCII character, are left as they are: Python
    lowers some non-ASCII characters too, but none of them to the letter s,
    and the script compares the lowered answer with that letter only. *)
Definition lower_ascii (c : ascii) : ascii :=
  let n := nat_of_ascii c in
  if ((65 <=? n) && (n <=? 90))%nat then ascii_of_nat (n + 32) else c.

Fixpoint lower (s : string) : string :=
  match s with
  | EmptyString => EmptyString
  | String c s' => String (lower_ascii c) (lower s')
  end.

(** [a < b] on floats. *)
Definition Qlt_bool (a b : Q) : bool := negb (Qle_bool b a).

(** [max(a, b)] of Python: the first of the largest arguments. *)
Definition py_max (a b : Q) : Q := if Qlt_bool a b then b else a.

(** ** Samples and frames *)

Record sample : Type := mkSample {
  timestamp : string;
  cpu_util : Q;
  gpu_util : option Q;
  gpu_temp : option Q;
  gpu_power : option Q
}.

(** [pd.DataFrame(data)] for a list of dictionaries: the columns are the keys
    of the records, so a frame built from no record has no column. *)
Record DataFrame : Type := mkFrame {
  columns : list string;
  records : list sample
}.

Definition sample_keys : list string :=
  ["timestamp"; "cpu_util"; "gpu_util"; "gpu_temp"; "gpu_power"].

Definition pd_DataFrame (data : list sample) : DataFrame :=
  match data with
  | [] => mkFrame [] []
  | _ :: _ => mkFrame sample_keys data
  end.

(** [df[name]]: [KeyError] when the frame has no such column. *)
Definition df_getitem {A} (df : DataFrame) (name : string)
    (field : sample -> A) : M (list A) :=
  if existsb (String.eqb name) (columns df)
  then ret (map field (records df))
  else raise (mkExc KeyError name).

Definition is_null (x : option Q) : bool :=
  match x with
  | None => true
  | Some _ => false
  end.

(** [series.isnull().all()] *)
Definition isnull_all (s : list (option Q)) : bool := forallb is_null s.

(** [series.mean()]: missing values are skipped; [None] stands for the NaN
    that pandas returns when nothing is left. *)
Definition nansum (s : list (option Q)) : Q :=
  fold_left (fun acc x => match x with Some v => acc + v | None => acc end) s 0.

Definition notnull_count (s : list (option Q)) : nat :=
  fold_left (fun n x => if is_null x then n else S n) s O.

Definition series_mean (s : list (option Q)) : option Q :=
  match notnull_count s with
  | O => None
  | S _ as n => Some (nansum s / inject_Z (Z.of_nat n))
  end.

(** ** The script proper *)

(** What the host provides on one tick of the loop. *)
Record tick_input : Type := mkTick {
  cpu_percent_value : Q;   (* the answer of psutil.cpu_percent *)
  adl : pyadl;             (* the state of the ADL library *)
  gpu_latency : Q          (* the time the GPU read takes *)
}.

Record host : Type := mkHost {
  amd_gpu_available : bool;            (* did [import pyadl] succeed *)
  tick_inputs : nat -> tick_input;     (* by tick, counted from 0 *)
  response : string;                   (* the line typed at the prompt *)
  str_number : Q -> string;            (* str(x), also "{x}" in an f-string *)
  format_f : nat -> Q -> string;       (* "{x:.<n>f}" *)
  localtime : Q -> struct_time
}.

Section Script.

Variable h : host.

(** [time.strftime(fmt)] *)
Definition time_strftime (fmt : string) (render : struct_time -> string)
  : M string :=
  fun w => (Returns (render (localtime h (now w))),
            mkWorld (now w) (log w ++ [Strftime fmt (now w)])).

(** [psutil.cpu_percent(interval=i)] blocks for [i] seconds. *)
Definition psutil_cpu_percent (i : Q) (answer : Q) : M Q :=
  emit (CpuPercent i) ;; elapse i ;; ret answer.

(** [input(prompt)] *)
Definition input (prompt : string) : M string :=
  emit (Input prompt) ;; ret (response h).

(** ["{v or 'N/A'}"]: the placeholder replaces every falsy value. *)
Definition or_NA (v : option Q) : string :=
  match v with
  | Some q => if Qeq_bool q 0 then "N/A" else str_number h q
  | None => "N/A"
  end.

(** Line 84. *)
Definition power_display (gpu_power : option Q) : string :=
  match gpu_power with
  | Some p => format_f h 1 p ++ "W"
  | None => "N/A"
  end.

(** The text of line 85. *)
Definition status_line (cpu_util : Q) (gpu_util gpu_temp gpu_power : option Q)
  : string :=
  cr ++ "[CPU: " ++ format_f h 1 cpu_util ++ "% | GPU: " ++ or_NA gpu_util ++
  "% | Temp: " ++ or_NA gpu_temp ++ "°C | Power: " ++
  power_display gpu_power ++ "]".

(** The body of the [while] of [monitor_system] (lines 68-87). *)
Definition tick (interval : Q) (data : list sample) : M (list sample) :=
  let inp := tick_inputs h (List.length data) in
  cpu_util <- psutil_cpu_percent 0.1 (cpu_percent_value inp) ;;
  r <- get_amd_gpu_stats (amd_gpu_available h) (adl inp) ;;
  elapse (gpu_latency inp) ;;
  let '(gpu_util, gpu_temp, gpu_power) := r in
  timestamp <- time_strftime "%H:%M:%S" strftime_HMS ;;
  let data :=
    (data ++ [mkSample timestamp cpu_util gpu_util gpu_temp gpu_power])%list in
  print_noend (status_line cpu_util gpu_util gpu_temp gpu_power) ;;
  time_sleep (py_max 0 (interval - 0.1)) ;;
  ret data.

(** The [while time.time() < end_time] of [monitor_system]. *)
Fixpoint monitor_loop (fuel : nat) (interval end_time : Q)
    (data : list sample) : M (list sample) :=
  match fuel with
  | O => fun w => (OutOfFuel, w)
  | S fuel' =>
    t <- time_time ;;
    if Qlt_bool t end_time
    then data <- tick interval data ;;
         monitor_loop fuel' interval end_time data
    else ret data
  end.

(** [monitor_system] (lines 59-89). *)
Definition monitor_system (fuel : nat) (duration interval : Q) : M DataFrame :=
  let data := [] in
  t <- time_time ;;
  let end_time := t + duration in
  print (nl ++ "Iniciando monitoreo por " ++ str_number h duration ++
         " segundos...") ;;
  print ("GPU AMD detectada: " ++
         (if amd_gpu_available h then "Sí" else "No")) ;;
  data <- monitor_loop fuel interval end_time data ;;
  ret (pd_DataFrame data).

(** [f"{series.mean():.2f}"]; NaN is written nan. *)
Definition format_mean (m : option Q) : string :=
  match m with
  | Some q => format_f h 2 q
  | None => "nan"
  end.

Definition cpu_mean_line (m : option Q) : string :=
  "- CPU: Utilización promedio: " ++ format_mean m ++ "%".

Definition util_mean_line (m : option Q) : string :=
  "- GPU: Utilización promedio: " ++ format_mean m ++ "%".
Definition util_unavailable : string :=
  "- GPU: No se pudo obtener utilización".

Definition temp_mean_line (m : option Q) : string :=
  "- GPU: Temperatura promedio: " ++ format_mean m ++ "°C".
Definition temp_unavailable : string :=
  "- GPU: No se pudo obtener temperatura".

Definition power_mean_line (m : option Q) : string :=
  "- GPU: Consumo de energía promedio: " ++ format_mean m ++ " W".
Definition power_unavailable : string :=
  "- GPU: El consumo de energía no está disponible para este modelo".

(** The aggregate report of [main] (lines 115-133). *)
Definition report (df : DataFrame) : M unit :=
  print (nl ++ nl ++ "Resultados finales:") ;;
  cpu <- df_getitem df "cpu_util" cpu_util ;;
  print (cpu_mean_line (series_mean (map Some cpu))) ;;
  if amd_gpu_available h then
    col <- df_getitem df "gpu_util" gpu_util ;;
    (if negb (isnull_all col)
     then col <- df_getitem df "gpu_util" gpu_util ;;
          print (util_mean_line (series_mean col))
     else print util_unavailable) ;;
    col <- df_getitem df "gpu_temp" gpu_temp ;;
    (if negb (isnull_all col)
     then col <- df_getitem df "gpu_temp" gpu_temp ;;
          print (temp_mean_line (series_mean col))
     else print temp_unavailable) ;;
    col <- df_getitem df "gpu_power" gpu_power ;;
    (if negb (isnull_all col)
     then col <- df_getitem df "gpu_power" gpu_power ;;
          print (power_mean_line (series_mean col))
     else print power_unavailable)
  else ret tt.

(** [df.to_csv(filename, index=False)]: the header, then a line per record;
    a missing value is an empty field. *)
Definition csv_field (v : option Q) : string :=
  match v with
  | Some q => str_number h q
  | None => EmptyString
  end.

Definition csv_row (s : sample) : string :=
  String.concat ","
    [timestamp s; str_number h (cpu_util s); csv_field (gpu_util s);
     csv_field (gpu_temp s); csv_field (gpu_power s)].

Definition csv_lines (df : DataFrame) : list string :=
  String.concat "," (columns df) :: map csv_row (records df).

Definition to_csv (df : DataFrame) (filename : string) : M unit :=
  emit (ToCsv filename (csv_lines df)).

Definition csv_filename (stamp : string) : string :=
  "rx460_monitor_" ++ stamp ++ ".csv".

(** The prompt that ends [main] (lines 135-140). *)
Definition save_prompt (df : DataFrame) : M unit :=
  answer <- input (nl ++ "¿Guardar datos en CSV? (s/n): ") ;;
  let save := lower answer in
  if String.eqb save "s" then
    stamp <- time_strftime "%Y%m%d_%H%M%S" strftime_Ymd_HMS ;;
    let filename := csv_filename stamp in
    to_csv df filename ;;
    print ("Datos guardados en " ++ filename)
  else ret tt.

(** [main] (lines 91-140).  The imports of lines 98-99 repeat those of lines
    2-3, without which [main] is never reached: they cannot fail here. *)
Definition main (fuel : nat) : M unit :=
  print "Sistema de Monitoreo para AMD RX 460 en Windows 10" ;;
  print ("Versión adaptada para RX 400 series" ++ nl) ;;
  print "Verificando dependencias..." ;;
  if negb (amd_gpu_available h) then
    print (nl ++ "ADL no disponible. Instala pyadl para monitorear la GPU AMD") ;;
    print "Ejecuta: pip install pyadl" ;;
    print "Asegúrate de tener los drivers AMD Adrenalin instalados" ;;
    print "Reinicia después de instalar los drivers"
  else
    df <- monitor_system fuel 20 1 ;;
    report df ;;
    save_prompt df.

End Script.

(** ** Notions of the specification *)

(** A world in which nothing has happened yet. *)
Definition blank : world := mkWorld 0 [].

(** What one call of the adapter answers and which calls it makes, observed
    from a blank world. *)
Definition probe (avail : bool) (lib : pyadl) : outcome gpu_reading * list event :=
  let (r, w) := get_amd_gpu_stats avail lib blank in (r, log w).

(** A library in which initialisation succeeds and enumerates [ds]. *)
Definition with_devices (ds : list ADLDevice) : pyadl :=
  mkPyadl (Gives (mkManager (Gives ds))).

(** A sub-reading is unsupported when its call raises [AttributeError]. *)
Definition unsupported (r : reply Q) : Prop :=
  exists e, r = Throws e /\ is_AttributeError e = true.

(** A sub-reading that answers or is unsupported does not disturb the read. *)
Definition tolerated (r : reply Q) : Prop :=
  match r with
  | Gives _ => True
  | Throws e => is_AttributeError e = true
  end.

(** A sub-reading that fails with anything else than "unsupported". *)
Definition breaks (r : reply Q) (e : exc) : Prop :=
  r = Throws e /\ is_AttributeError e = false.

(** The metric a tolerated sub-reading stands for. *)
Definition sub_reading (r : reply Q) : option Q :=
  match r with
  | Gives v => Some v
  | Throws _ => None
  end.

(** An unexpected failure [e] somewhere in the read: in the initialisation,
    or in a sub-reading that is reached and fails with something else than
    "unsupported". *)
Inductive unexpected_failure (lib : pyadl) (e : exc) : Prop :=
| fail_getInstance :
    getInstance lib = Throws e -> unexpected_failure lib e
| fail_getDevices m :
    getInstance lib = Gives m -> getDevices m = Throws e ->
    unexpected_failure lib e
| fail_usage m gpu rest :
    getInstance lib = Gives m -> getDevices m = Gives (gpu :: rest) ->
    breaks (getCurrentUsage gpu) e ->
    unexpected_failure lib e
| fail_temperature m gpu rest :
    getInstance lib = Gives m -> getDevices m = Gives (gpu :: rest) ->
    tolerated (getCurrentUsage gpu) ->
    breaks (getCurrentTemperature gpu) e ->
    unexpected_failure lib e
| fail_power m gpu rest :
    getInstance lib = Gives m -> getDevices m = Gives (gpu :: rest) ->
    tolerated (getCurrentUsage gpu) ->
    tolerated (getCurrentTemperature gpu) ->
    breaks (getCurrentPower gpu) e ->
    unexpected_failure lib e
| fail_power_value m gpu rest :
    getInstance lib = Gives m -> getDevices m = Gives (gpu :: rest) ->
    tolerated (getCurrentUsage gpu) ->
    tolerated (getCurrentTemperature gpu) ->
    unsupported (getCurrentPower gpu) ->
    breaks (getCurrentPowerValue gpu) e ->
    unexpected_failure lib e.

(** The call degrades to all-absent and writes a diagnostic. *)
Definition degrades_with_diagnostic (avail : bool) (lib : pyadl) (w : world)
  : Prop :=
  exists evs text,
    get_amd_gpu_stats avail lib w =
    (Returns all_absent, mkWorld (now w) (log w ++ evs)) /\
    In (Print text) evs.

(** The calls the adapter can make: the two initialisation steps, methods
    of the device of index 0, and the diagnostic. *)
Definition adapter_event (ev : event) : Prop :=
  match ev with
  | AdlGetInstance | AdlGetDevices | Print _ => True
  | DeviceCall i _ => i = O
  | _ => False
  end.

(** Every device call of a log addresses the device of index 0. *)
Definition on_first_device (ev : event) : Prop :=
  match ev with
  | DeviceCall i _ => i = O
  | _ => True
  end.




(** The instants at which the samples of a log were stamped, the sleeps and
    the CPU sampling windows of a log. *)
Definition stamps (l : list event) : list Q :=
  flat_map (fun ev => match ev with
                      | Strftime "%H:%M:%S" t => [t]
                      | _ => []
                      end) l.

Definition sleeps (l : list event) : list Q :=
  flat_map (fun ev => match ev with Sleep d => [d] | _ => [] end) l.

Definition cpu_windows (l : list event) : list Q :=
  flat_map (fun ev => match ev with CpuPercent i => [i] | _ => [] end) l.

(** The wall-clock time between the first and the last stamp. *)
Definition span (ts : list Q) : Q := last ts 0 - hd 0 ts.

Definition exports (l : list event) : list (string * list string) :=
  flat_map (fun ev => match ev with ToCsv f ls => [(f, ls)] | _ => [] end) l.

Definition printed (l : list event) : list string :=
  flat_map (fun ev => match ev with Print s => [s] | _ => [] end) l.

(** Hypotheses on the host. *)
Definition nonneg_latency (h : host) : Prop :=
  forall k, 0 <= gpu_latency (tick_inputs h k).

Definition instant_gpu (h : host) : Prop :=
  forall k, gpu_latency (tick_inputs h k) == 0.

(** A tick blocks for a tenth of a second at least, so a run of [duration]
    seconds takes no more than this many loop tests. *)
Definition enough_fuel (duration : Q) : nat :=
  S (Z.to_nat (Qceiling (duration * 10))).

(** Two collections that agree on every tick but tick [k]. *)
Definition agree_except (k : nat) (l1 l2 : list sample) : Prop :=
  List.length l1 = List.length l2 /\
  forall j, j <> k -> nth_error l1 j = nth_error l2 j.

(** Two hosts that differ at most in the state of the ADL library on tick
    [k]. *)
Definition same_but_adl_at (k : nat) (h1 h2 : host) : Prop :=
  amd_gpu_available h1 = amd_gpu_available h2 /\
  localtime h1 = localtime h2 /\
  (forall j, cpu_percent_value (tick_inputs h1 j) =
             cpu_percent_value (tick_inputs h2 j)) /\
  (forall j, gpu_latency (tick_inputs h1 j) = gpu_latency (tick_inputs h2 j)) /\
  (forall j, j <> k -> adl (tick_inputs h1 j) = adl (tick_inputs h2 j)).

(** ** What one tick contributes *)

(** The reading of the adapter on tick [k] and the calls it makes. *)
Definition reading_at (h : host) (k : nat) : gpu_reading :=
  match fst (probe (amd_gpu_available h) (adl (tick_inputs h k))) with
  | Returns r => r
  | _ => all_absent
  end.

Definition gpu_events (h : host) (k : nat) : list event :=
  snd (probe (amd_gpu_available h) (adl (tick_inputs h k))).

(** The instant at which tick [k], started at clock [t], stamps its sample,
    and the instant at which it ends. *)
Definition stamp_instant (h : host) (k : nat) (t : Q) : Q :=
  t + 0.1 + gpu_latency (tick_inputs h k).

Definition tick_end (h : host) (interval : Q) (k : nat) (t : Q) : Q :=
  stamp_instant h k t + py_max 0 (interval - 0.1).

(** The sample of tick [k] started at clock [t], and the line it displays. *)
Definition sample_of (h : host) (k : nat) (t : Q) : sample :=
  let '(u, tp, p) := reading_at h k in
  mkSample (strftime_HMS (localtime h (stamp_instant h k t)))
           (cpu_percent_value (tick_inputs h k)) u tp p.

Definition display_of (h : host) (k : nat) : string :=
  let '(u, tp, p) := reading_at h k in
  status_line h (cpu_percent_value (tick_inputs h k)) u tp p.

(** The calls of tick [k] started at clock [t], in order. *)
Definition tick_events (h : host) (interval : Q) (k : nat) (t : Q)
  : list event :=
  ([CpuPercent 0.1] ++ gpu_events h k ++
   [Strftime "%H:%M:%S" (stamp_instant h k t);
    Print (display_of h k);
    Sleep (py_max 0 (interval - 0.1))])%list.

(** What [monitor_system] writes before it enters the loop. *)
Definition monitor_banner (h : host) (duration : Q) : list event :=
  [Print ((nl ++ "Iniciando monitoreo por " ++ str_number h duration ++
           " segundos...") ++ nl)%string;
   Print (("GPU AMD detectada: " ++
           (if amd_gpu_available h then "Sí" else "No")) ++ nl)%string].

(** The diagnostic of the adapter, as written to stdout. *)
Definition diagnostic (e : exc) : event :=
  Print (gpu_error_message e ++ nl)%string.

(** The values Python takes for false in [v or 'N/A']: [None] and zero. *)
Definition falsy (v : option Q) : Prop :=
  match v with
  | None => True
  | Some q => q == 0
  end.

(** The three GPU fields of a sample. *)
Definition gpu_fields (s : sample) : gpu_reading :=
  (gpu_util s, gpu_temp s, gpu_power s).

(** ** What [main] writes *)

Definition main_banner : list event :=
  [Print ("Sistema de Monitoreo para AMD RX 460 en Windows 10" ++ nl)%string;
   Print (("Versión adaptada para RX 400 series" ++ nl) ++ nl)%string;
   Print ("Verificando dependencias..." ++ nl)%string].

Definition install_guidance : list event :=
  [Print ((nl ++ "ADL no disponible. Instala pyadl para monitorear la GPU AMD")
          ++ nl)%string;
   Print ("Ejecuta: pip install pyadl" ++ nl)%string;
   Print ("Asegúrate de tener los drivers AMD Adrenalin instalados" ++ nl)%string;
   Print ("Reinicia después de instalar los drivers" ++ nl)%string].

Definition report_header : event :=
  Print ((nl ++ nl ++ "Resultados finales:") ++ nl)%string.

Definition save_question : string :=
  (nl ++ "¿Guardar datos en CSV? (s/n): ")%string.

Definition is_print (ev : event) : Prop :=
  match ev with
  | Print _ => True
  | _ => False
  end.

(** The line of the report for one GPU metric, given its column. *)
Definition gpu_report_line (col : list (option Q))
    (mean_line : option Q -> string) (unavailable : string) : string :=
  if isnull_all col then unavailable else mean_line (series_mean col).


(** A broken-down time whose fields have the width that [strftime] gives
    them: four digits for the year, two for the others. *)
Definition plausible_time (tm : struct_time) : Prop :=
  (1000 <= Z.of_nat (tm_year tm) <= 9999)%Z /\
  (tm_mon tm < 100)%nat /\ (tm_mday tm < 100)%nat /\
  (tm_hour tm < 100)%nat /\ (tm_min tm < 100)%nat /\ (tm_sec tm < 100)%nat.

(** ** The cells of the status line and the reading of a device *)

(** The text of the status line of line 85, by its four cells. *)
Definition status_text (cpu_cell gpu_cell temp_cell power_cell : string)
  : string :=
  (cr ++ "[CPU: " ++ cpu_cell ++ "% | GPU: " ++ gpu_cell ++ "% | Temp: " ++
   temp_cell ++ "°C | Power: " ++ power_cell ++ "]")%string.

(** A text that holds [sub] somewhere. *)
Definition contains (sub s : string) : Prop :=
  exists before after, s = (before ++ sub ++ after)%string.

(** The power a device reports, by the two tiers of the adapter. *)
Definition power_reading (gpu : ADLDevice) : option Q :=
  match getCurrentPower gpu with
  | Gives v => Some v
  | Throws _ =>
    match getCurrentPowerValue gpu with
    | Gives mw => Some (mw / 1000)
    | Throws _ => None
    end
  end.

(** A device none of whose sub-readings, as far as the adapter reaches them,
    fails with anything else than "unsupported". *)
Definition answers_or_unsupported (gpu : ADLDevice) : Prop :=
  tolerated (getCurrentUsage gpu) /\
  tolerated (getCurrentTemperature gpu) /\
  tolerated (getCurrentPower gpu) /\
  (unsupported (getCurrentPower gpu) -> tolerated (getCurrentPowerValue gpu)).

(** ** Notions of the further properties *)

(** A count, as a number of seconds or of samples. *)
Definition Qnat (n : nat) : Q := inject_Z (Z.of_nat n).

(** The rendering of the instant of a stamp, as a sample carries it. *)
Definition stamp_text (h : host) (t : Q) : string :=
  strftime_HMS (localtime h t).

(** A call into the ADL library. *)
Definition adl_call (ev : event) : Prop :=
  match ev with
  | AdlGetInstance | AdlGetDevices | DeviceCall _ _ => True
  | _ => False
  end.

(** The differences between the consecutive elements of a list. *)
Fixpoint gaps (l : list Q) : list Q :=
  match l with
  | a :: (b :: _) as l' => (b - a) :: gaps l'
  | _ => []
  end.

(** The prompts of a log. *)
Definition prompts (l : list event) : list string :=
  flat_map (fun ev => match ev with Input p => [p] | _ => [] end) l.

(** The calls into the ADL library of a log, in order. *)
Definition adl_calls (l : list event) : list event :=
  flat_map (fun ev => match ev with
                      | AdlGetInstance | AdlGetDevices | DeviceCall _ _ => [ev]
                      | _ => []
                      end) l.

(** The calls of a read in which every step answers and the fallback of the
    power reading is needed. *)
Definition longest_read : list event :=
  [AdlGetInstance; AdlGetDevices; DeviceCall 0 "getCurrentUsage";
   DeviceCall 0 "getCurrentTemperature"; DeviceCall 0 "getCurrentPower";
   DeviceCall 0 "getCurrentPowerValue"].

(** What tick [j] writes to stdout: the diagnostic of its read, if any, and
    its status line. *)
Definition tick_output (h : host) (j : nat) : list string :=
  printed (gpu_events h j) ++ [display_of h j].

(** A decimal digit. *)
Definition is_digit (c : ascii) : Prop :=
  (48 <= nat_of_ascii c <= 57)%nat.

(** A text of the shape dd:dd:dd. *)
Definition clock_text (s : string) : Prop :=
  exists a b c d e f,
    is_digit a /\ is_digit b /\ is_digit c /\
    is_digit d /\ is_digit e /\ is_digit f /\
    s = String a (String b (String ":" (String c (String d (String ":"
          (String e (String f EmptyString))))))).

(** The hours, minutes and seconds of a broken-down time are two digits
    wide. *)
Definition two_digit_time (tm : struct_time) : Prop :=
  (tm_hour tm < 100)%nat /\ (tm_min tm < 100)%nat /\ (tm_sec tm < 100)%nat.

(** ** Concrete hosts *)

Module Demo.

(** A fixed-point rendering with [n] decimals, enough for the examples. *)
Definition zeros (n : nat) : string :=
  String.concat EmptyString (repeat "0" n).

Definition fixed (n : nat) (q : Q) : string :=
  let scale := (10 ^ Z.of_nat n)%Z in
  let z := Qfloor (q * inject_Z scale + (1 # 2)) in
  let frac := decimal (Z.to_nat (z mod scale)) in
  decimal (Z.to_nat (z / scale)) ++ "." ++
  zeros (n - String.length frac) ++ frac.

(** A clock that counts the seconds since midnight of 2024-01-01. *)
Definition clock (t : Q) : struct_time :=
  let s := Z.to_nat (Qfloor t) in
  mkTime 2024 1 1 ((s / 3600) mod 24) ((s / 60) mod 60) (s mod 60).

Definition no_attribute (name : string) : exc :=
  mkExc AttributeError ("'ADLDevice' object has no attribute '" ++ name ++ "'").

(** An RX 460: no direct power reading, the fallback answers in milliwatts. *)
Definition rx460 : ADLDevice :=
  mkDevice (Gives 37) (Gives 52)
           (Throws (no_attribute "getCurrentPower")) (Gives 45000).

(** A second card, busier and hotter. *)
Definition rx580 : ADLDevice :=
  mkDevice (Gives 99) (Gives 81) (Gives 120) (Gives 120000).

(** A card that reports an idle GPU at 0 degrees. *)
Definition idle : ADLDevice :=
  mkDevice (Gives 0) (Gives 0) (Gives 0) (Gives 0).

(** A card without any power reading. *)
Definition powerless : ADLDevice :=
  mkDevice (Gives 37) (Gives 52)
           (Throws (no_attribute "getCurrentPower"))
           (Throws (no_attribute "getCurrentPowerValue")).

Definition driver_crash : exc := mkExc (OtherException "ADLError") "ADL call failed".

Definition broken : pyadl := mkPyadl (Throws driver_crash).

(** The host of the examples: the library state by tick, the typed answer. *)
Definition machine (avail : bool) (lib_at : nat -> pyadl) (answer : string)
  : host :=
  mkHost avail (fun k => mkTick 12 (lib_at k) 0) answer (fixed 1) fixed clock.

(** The library fails on the fifth tick only. *)
Definition fails_on_fifth (k : nat) : pyadl :=
  if (k =? 4)%nat then broken else with_devices [rx460].

(** A machine on which every read succeeds, and one on which the read of the
    fifth tick fails; nothing is typed at the prompt. *)
Definition steady : host :=
  machine true (fun _ => with_devices [rx460]) EmptyString.

Definition flaky : host := machine true fails_on_fifth EmptyString.

(** A collection in which the utilization is never present, and the
    temperature and the power are present in one sample each. *)
Definition patchy : list sample :=
  [mkSample "00:00:00" 10 None (Some 50) None;
   mkSample "00:00:01" 20 None None (Some 40)].

(** The steady machine, each GPU read taking a millisecond. *)
Definition unhurried : host :=
  mkHost true (fun _ => mkTick 12 (with_devices [rx460]) 0.001) EmptyString
         (fixed 1) fixed clock.

(** The steady machine without pyadl. *)
Definition cpu_only : host :=
  machine false (fun _ => with_devices [rx460]) EmptyString.

(** The steady machine, with a capital S typed at the prompt. *)
Definition shouting : host :=
  machine true (fun _ => with_devices [rx460]) "S".

End Demo.

(** * Properties *)

Local Open Scope list_scope.

(** ** The adapter *)

Lemma app_snoc2 {A} (l : list A) (a b : A) : (l ++ [a]) ++ [b] = l ++ [a; b].
Proof. now rewrite <- app_assoc. Qed.

Lemma world_eta (w : world) : mkWorld (now w) (log w) = w.
Proof. now destruct w. Qed.

Ltac split_exc e :=
  let c := fresh "c" in
  let m := fresh "m" in
  destruct e as [c m]; destruct c.

Ltac split_reply r :=
  let v := fresh "v" in
  let e := fresh "e" in
  destruct r as [v | e]; [ | split_exc e ].

(** Unfolds a run of the adapter down to the events it logs. *)
Ltac run_adapter :=
  cbv [get_amd_gpu_stats try_except_Exception try_except_AttributeError
       try_except bind call emit ret print outcome_of_reply negb
       is_AttributeError exc_cls set_utilization set_temperature set_power
       utilization temperature power all_absent
       getInstance getDevices getCurrentUsage getCurrentTemperature
       getCurrentPower getCurrentPowerValue now log];
  repeat rewrite <- app_assoc; cbn [app].

(** A call of the adapter always returns; it never moves the clock, and what
    it answers and logs does not depend on the world it starts from. *)
Lemma get_amd_gpu_stats_frame (avail : bool) (lib : pyadl) :
  exists r, fst (probe avail lib) = Returns r /\
    Forall adapter_event (snd (probe avail lib)) /\
    forall w, get_amd_gpu_stats avail lib w =
              (Returns r, mkWorld (now w) (log w ++ snd (probe avail lib))).
Proof.
  unfold probe, blank.
  destruct avail.
  2:{ exists all_absent. split; [reflexivity|]. split; [constructor|].
      intros w; cbn. now rewrite app_nil_r, world_eta. }
  destruct lib as [[[[ds | e]] | e]].
  - destruct ds as [ | [u t p pv] rest].
    + eexists; split; [reflexivity|]. split; [repeat constructor|].
      intros w. run_adapter. reflexivity.
    + split_reply u; split_reply t; split_reply p; split_reply pv;
        (eexists; split; [reflexivity|]; split; [repeat constructor|];
         intros w; run_adapter; reflexivity).
  - eexists; split; [reflexivity|]. split; [repeat constructor|].
    intros w. run_adapter. reflexivity.
  - eexists; split; [reflexivity|]. split; [repeat constructor|].
    intros w. run_adapter. reflexivity.
Qed.

Lemma get_amd_gpu_stats_returns (avail : bool) (lib : pyadl) (w : world) :
  exists r evs, get_amd_gpu_stats avail lib w =
                (Returns r, mkWorld (now w) (log w ++ evs)).
Proof.
  destruct (get_amd_gpu_stats_frame avail lib) as [r [_ [_ H]]].
  exists r, (snd (probe avail lib)). apply H.
Qed.

(** The adapter at tick [k], in terms of [reading_at] and [gpu_events]. *)
Lemma get_amd_gpu_stats_at (h : host) (k : nat) (w : world) :
  get_amd_gpu_stats (amd_gpu_available h) (adl (tick_inputs h k)) w =
  (Returns (reading_at h k), mkWorld (now w) (log w ++ gpu_events h k)).
Proof.
  destruct (get_amd_gpu_stats_frame (amd_gpu_available h)
              (adl (tick_inputs h k))) as [r [Hr [_ H]]].
  unfold reading_at, gpu_events. rewrite Hr. apply H.
Qed.

(** ** One tick *)

Lemma tick_spec (h : host) (interval : Q) (data : list sample) (w : world) :
  let k := List.length data in
  tick h interval data w =
  (Returns (data ++ [sample_of h k (now w)]),
   mkWorld (tick_end h interval k (now w))
           (log w ++ tick_events h interval k (now w))).
Proof.
  intros k. destruct w as [t l]. unfold tick. fold k.
  unfold psutil_cpu_percent.
  cbv [bind emit elapse ret]. cbn [now log].
  rewrite get_amd_gpu_stats_at. cbn [now log].
  unfold tick_events, tick_end, stamp_instant, sample_of, display_of.
  destruct (reading_at h k) as [[u tp] p].
  cbv [time_strftime print_noend time_sleep bind emit elapse ret].
  cbn [now log app].
  repeat rewrite <- app_assoc. reflexivity.
Qed.

Lemma gpu_events_adapter (h : host) (k : nat) :
  Forall adapter_event (gpu_events h k).
Proof.
  destruct (get_amd_gpu_stats_frame (amd_gpu_available h)
              (adl (tick_inputs h k))) as [r [_ [H _]]].
  exact H.
Qed.

Lemma stamps_app (l1 l2 : list event) : stamps (l1 ++ l2) = stamps l1 ++ stamps l2.
Proof. apply flat_map_app. Qed.

Lemma sleeps_app (l1 l2 : list event) : sleeps (l1 ++ l2) = sleeps l1 ++ sleeps l2.
Proof. apply flat_map_app. Qed.

Lemma cpu_windows_app (l1 l2 : list event) :
  cpu_windows (l1 ++ l2) = cpu_windows l1 ++ cpu_windows l2.
Proof. apply flat_map_app. Qed.

Lemma adapter_events_silent (l : list event) :
  Forall adapter_event l ->
  stamps l = [] /\ sleeps l = [] /\ cpu_windows l = [] /\ exports l = [].
Proof.
  induction 1 as [ | ev l Hev _ [IH1 [IH2 [IH3 IH4]]]]; [now repeat split|].
  destruct ev; try contradiction; cbn; now repeat split.
Qed.

Lemma tick_events_stamps (h : host) (interval : Q) (k : nat) (t : Q) :
  stamps (tick_events h interval k t) = [stamp_instant h k t].
Proof.
  unfold tick_events. rewrite !stamps_app.
  destruct (adapter_events_silent _ (gpu_events_adapter h k)) as [-> _].
  reflexivity.
Qed.

Lemma tick_events_sleeps (h : host) (interval : Q) (k : nat) (t : Q) :
  sleeps (tick_events h interval k t) = [py_max 0 (interval - 0.1)].
Proof.
  unfold tick_events. rewrite !sleeps_app.
  destruct (adapter_events_silent _ (gpu_events_adapter h k)) as [_ [-> _]].
  reflexivity.
Qed.

Lemma tick_events_cpu_windows (h : host) (interval : Q) (k : nat) (t : Q) :
  cpu_windows (tick_events h interval k t) = [0.1].
Proof.
  unfold tick_events. rewrite !cpu_windows_app.
  destruct (adapter_events_silent _ (gpu_events_adapter h k)) as [_ [_ [-> _]]].
  reflexivity.
Qed.

(** ** The loop *)

Lemma Qlt_bool_iff (a b : Q) : Qlt_bool a b = true <-> a < b.
Proof.
  unfold Qlt_bool. rewrite negb_true_iff.
  split.
  - intros H. apply Qnot_le_lt. intros Hle.
    apply Qle_bool_iff in Hle. congruence.
  - intros H. destruct (Qle_bool b a) eqn:E; [|reflexivity].
    apply Qle_bool_iff in E. exfalso. apply (Qlt_not_le _ _ H E).
Qed.

Lemma Qlt_bool_false (a b : Q) : Qlt_bool a b = false <-> b <= a.
Proof.
  unfold Qlt_bool. rewrite negb_false_iff. apply Qle_bool_iff.
Qed.

Lemma py_max_nonneg (x : Q) : 0 <= py_max 0 x.
Proof.
  unfold py_max. destruct (Qlt_bool 0 x) eqn:E.
  - apply Qlt_bool_iff in E. lra.
  - lra.
Qed.

Lemma py_max_pace (interval : Q) :
  0.1 <= interval -> py_max 0 (interval - 0.1) == interval - 0.1.
Proof.
  intros H. unfold py_max. destruct (Qlt_bool 0 (interval - 0.1)) eqn:E.
  - reflexivity.
  - apply Qlt_bool_false in E. lra.
Qed.

Lemma py_max_short (interval : Q) :
  interval <= 0.1 -> py_max 0 (interval - 0.1) == 0.
Proof.
  intros H. unfold py_max. destruct (Qlt_bool 0 (interval - 0.1)) eqn:E.
  - apply Qlt_bool_iff in E. lra.
  - reflexivity.
Qed.

(** One test of the loop condition and, if it holds, one tick. *)
Lemma monitor_loop_S (h : host) (fuel : nat) (interval end_time : Q)
    (data : list sample) (w : world) :
  monitor_loop h (S fuel) interval end_time data w =
  if Qlt_bool (now w) end_time
  then let k := List.length data in
       monitor_loop h fuel interval end_time
         (data ++ [sample_of h k (now w)])
         (mkWorld (tick_end h interval k (now w))
                  (log w ++ tick_events h interval k (now w)))
  else (Returns data, w).
Proof.
  cbn [monitor_loop]. unfold bind at 1. unfold time_time.
  destruct (Qlt_bool (now w) end_time); [|reflexivity].
  unfold bind. rewrite tick_spec. reflexivity.
Qed.

(** Invariants of the loop: what holds at the start and is kept by every
    tick started before [end_time] holds when the loop returns, and the clock
    has then reached [end_time]. *)
Lemma monitor_loop_inv (h : host) (interval end_time : Q)
    (P : list sample -> world -> Prop) :
  (forall data w, P data w -> now w < end_time ->
     let k := List.length data in
     P (data ++ [sample_of h k (now w)])
       (mkWorld (tick_end h interval k (now w))
                (log w ++ tick_events h interval k (now w)))) ->
  forall fuel data w r w',
    P data w ->
    monitor_loop h fuel interval end_time data w = (Returns r, w') ->
    P r w' /\ end_time <= now w'.
Proof.
  intros Hstep. induction fuel as [ | fuel IH]; intros data w r w' HP Hrun.
  - discriminate Hrun.
  - rewrite monitor_loop_S in Hrun.
    destruct (Qlt_bool (now w) end_time) eqn:E.
    + apply Qlt_bool_iff in E. eapply IH; [|exact Hrun].
      apply Hstep; assumption.
    + apply Qlt_bool_false in E. inversion Hrun; subst. now split.
Qed.

Lemma tick_end_advances (h : host) (interval : Q) (k : nat) (t : Q) :
  nonneg_latency h -> t + 0.1 <= tick_end h interval k t.
Proof.
  intros Hlat. unfold tick_end, stamp_instant.
  pose proof (Hlat k). pose proof (py_max_nonneg (interval - 0.1)). lra.
Qed.

(** The loop returns: a tick takes a tenth of a second at least. *)
Lemma monitor_loop_terminates (h : host) (interval end_time : Q) :
  nonneg_latency h ->
  forall f data w,
    end_time - now w <= inject_Z (Z.of_nat f) * 0.1 ->
    exists r w', monitor_loop h (S f) interval end_time data w = (Returns r, w').
Proof.
  intros Hlat. induction f as [ | f IH]; intros data w Hrem;
    rewrite monitor_loop_S; destruct (Qlt_bool (now w) end_time) eqn:E;
    try (now eauto).
  - apply Qlt_bool_iff in E.
    change (inject_Z (Z.of_nat 0)) with 0 in Hrem. lra.
  - apply Qlt_bool_iff in E. cbv zeta. apply IH. cbn [now].
    pose proof (tick_end_advances h interval (List.length data) (now w) Hlat).
    rewrite Nat2Z.inj_succ, <- Z.add_1_r, inject_Z_plus in Hrem.
    change (inject_Z 1) with 1 in Hrem. lra.
Qed.

Lemma enough_fuel_spec (duration : Q) (fuel : nat) :
  (enough_fuel duration <= fuel)%nat ->
  exists f, fuel = S f /\ duration <= inject_Z (Z.of_nat f) * 0.1.
Proof.
  unfold enough_fuel. intros H. destruct fuel as [ | f]; [lia|].
  exists f. split; [reflexivity|].
  assert (Hz : (Qceiling (duration * 10) <= Z.of_nat f)%Z) by lia.
  pose proof (Qle_ceiling (duration * 10)) as Hc.
  rewrite Zle_Qle in Hz. lra.
Qed.

Lemma monitor_system_unfold (h : host) (fuel : nat) (duration interval : Q)
    (w : world) :
  monitor_system h fuel duration interval w =
  match monitor_loop h fuel interval (now w + duration) []
          (mkWorld (now w) (log w ++ monitor_banner h duration)) with
  | (Returns data, w') => (Returns (pd_DataFrame data), w')
  | (Raises e, w') => (Raises e, w')
  | (OutOfFuel, w') => (OutOfFuel, w')
  end.
Proof.
  unfold monitor_system, monitor_banner.
  cbv [bind time_time print emit ret]. cbn [now log].
  rewrite app_snoc2. reflexivity.
Qed.

(** With enough fuel the run of [monitor_system] completes. *)
Lemma monitor_system_returns (h : host) (fuel : nat) (duration interval : Q)
    (w : world) :
  nonneg_latency h -> (enough_fuel duration <= fuel)%nat ->
  exists data w',
    monitor_loop h fuel interval (now w + duration) []
      (mkWorld (now w) (log w ++ monitor_banner h duration)) =
    (Returns data, w') /\
    monitor_system h fuel duration interval w =
    (Returns (pd_DataFrame data), w').
Proof.
  intros Hlat Hfuel.
  destruct (enough_fuel_spec _ _ Hfuel) as [f [-> Hf]].
  destruct (monitor_loop_terminates h interval (now w + duration) Hlat f []
              (mkWorld (now w) (log w ++ monitor_banner h duration)))
    as [data [w' Hrun]].
  { cbn [now]. lra. }
  exists data, w'. split; [exact Hrun|].
  rewrite monitor_system_unfold, Hrun. reflexivity.
Qed.

(** ** Claims about the adapter *)

(** The adapter on the cards of the examples. *)
Example rx460_reading :
  probe true (with_devices [Demo.rx460]) =
  (Returns (Some 37, Some 52, Some (45000 / 1000)),
   [AdlGetInstance; AdlGetDevices; DeviceCall 0 "getCurrentUsage";
    DeviceCall 0 "getCurrentTemperature"; DeviceCall 0 "getCurrentPower";
    DeviceCall 0 "getCurrentPowerValue"]).
Proof. reflexivity. Qed.

Example rx580_reading :
  probe true (with_devices [Demo.rx580; Demo.rx460]) =
  (Returns (Some 99, Some 81, Some 120),
   [AdlGetInstance; AdlGetDevices; DeviceCall 0 "getCurrentUsage";
    DeviceCall 0 "getCurrentTemperature"; DeviceCall 0 "getCurrentPower"]).
Proof. reflexivity. Qed.

Example powerless_reading :
  fst (probe true (with_devices [Demo.powerless])) =
  Returns (Some 37, Some 52, None).
Proof. reflexivity. Qed.

Example broken_reading :
  probe true Demo.broken =
  (Returns all_absent, [AdlGetInstance; diagnostic Demo.driver_crash]).
Proof. reflexivity. Qed.

Ltac find_in := repeat (try (left; reflexivity); right).

(** C1 fails as it is stated: with the library absent, and with no device
    enumerated, the call degrades to all-absent without any diagnostic. *)
Lemma C1_silent_counterexample :
  ~ degrades_with_diagnostic false (with_devices [Demo.rx460]) blank /\
  ~ degrades_with_diagnostic true (with_devices []) blank.
Proof.
  split; intros [evs [text [Hrun Hin]]]; vm_compute in Hrun;
    inversion Hrun; subst evs; cbn in Hin;
    repeat (destruct Hin as [Hin | Hin]; [discriminate Hin|]); exact Hin.
Qed.

(** C1, amended: when the library is absent, when no device is enumerated and
    when an initialisation step fails, the call returns all three metrics
    absent and does not raise; it writes the diagnostic in the last case
    only, the first two are silent. *)
Theorem C1_degraded_reads (lib : pyadl) (e : exc) (w : world) :
  get_amd_gpu_stats false lib w = (Returns all_absent, w) /\
  get_amd_gpu_stats true (with_devices []) w =
    (Returns all_absent,
     mkWorld (now w) (log w ++ [AdlGetInstance; AdlGetDevices])) /\
  get_amd_gpu_stats true (mkPyadl (Throws e)) w =
    (Returns all_absent,
     mkWorld (now w) (log w ++ [AdlGetInstance; diagnostic e])) /\
  get_amd_gpu_stats true (mkPyadl (Gives (mkManager (Throws e)))) w =
    (Returns all_absent,
     mkWorld (now w)
             (log w ++ [AdlGetInstance; AdlGetDevices; diagnostic e])).
Proof.
  repeat split; unfold with_devices, diagnostic; run_adapter; reflexivity.
Qed.

Ltac tolerate r :=
  let v := fresh "v" in
  let c := fresh "c" in
  let m := fresh "m" in
  destruct r as [v | [c m]];
  [ | destruct c; cbn in *; try discriminate; try contradiction ].

Ltac unsupport H :=
  let e := fresh "e" in
  let E := fresh "E" in
  let A := fresh "A" in
  destruct H as [e [E A]]; rewrite E in *; clear E;
  destruct e as [[] ?]; cbn in A; try discriminate A; clear A.

Ltac break H :=
  let E := fresh "E" in
  let A := fresh "A" in
  destruct H as [E A]; rewrite E in *; clear E;
  match type of A with
  | is_AttributeError ?e = false =>
      destruct e as [[] ?]; cbn in A; try discriminate A; clear A
  end.

(** An unexpected failure anywhere in the read is caught: the call returns
    all-absent after writing the diagnostic of that failure. *)
Lemma unexpected_failure_absorbed (lib : pyadl) (e : exc) (w : world) :
  unexpected_failure lib e ->
  exists evs,
    get_amd_gpu_stats true lib w =
    (Returns all_absent, mkWorld (now w) (log w ++ evs)) /\
    In (diagnostic e) evs.
Proof.
  unfold diagnostic.
  destruct lib as [inst].
  intros [H | m H1 H2 | m gpu rest H1 H2 Hu | m gpu rest H1 H2 Hu Ht
          | m gpu rest H1 H2 Hu Ht Hp | m gpu rest H1 H2 Hu Ht Hp Hv];
    cbn in H1 || cbn in H; subst inst;
    try (destruct m as [devs]; cbn in H2; subst devs);
    try destruct gpu as [u t p pv]; cbn in *.
  - eexists; split; [run_adapter; reflexivity | cbn; find_in].
  - eexists; split; [run_adapter; reflexivity | cbn; find_in].
  - break Hu;
      (eexists; split; [run_adapter; reflexivity | cbn; find_in]).
  - break Ht; tolerate u;
      (eexists; split; [run_adapter; reflexivity | cbn; find_in]).
  - break Hp; tolerate u; tolerate t;
      (eexists; split; [run_adapter; reflexivity | cbn; find_in]).
  - unsupport Hp; break Hv; tolerate u; tolerate t;
      (eexists; split; [run_adapter; reflexivity | cbn; find_in]).
Qed.

Ltac show_failure :=
  eexists;
  first
    [ eapply fail_getInstance; reflexivity
    | eapply fail_getDevices; reflexivity
    | eapply fail_usage;
      [ reflexivity | reflexivity | split; reflexivity ]
    | eapply fail_temperature;
      [ reflexivity | reflexivity
      | cbn; first [exact I | reflexivity] | split; reflexivity ]
    | eapply fail_power;
      [ reflexivity | reflexivity
      | cbn; first [exact I | reflexivity]
      | cbn; first [exact I | reflexivity] | split; reflexivity ]
    | eapply fail_power_value;
      [ reflexivity | reflexivity
      | cbn; first [exact I | reflexivity]
      | cbn; first [exact I | reflexivity]
      | eexists; split; reflexivity | split; reflexivity ] ].

(** [unexpected_failure] leaves no failure out: a read in which none occurs
    writes nothing to stdout. *)
Lemma silent_or_unexpected_failure (lib : pyadl) :
  printed (snd (probe true lib)) = [] \/ exists e, unexpected_failure lib e.
Proof.
  destruct lib as [[[[ds | e]] | e]].
  - destruct ds as [ | [u t p pv] rest]; [left; reflexivity|].
    split_reply u; split_reply t; split_reply p; split_reply pv;
      first [ left; reflexivity | right; show_failure ].
  - right. show_failure.
  - right. show_failure.
Qed.

(** C3: the power reading is tried in two tiers.  With the device of index 0
    answering (or not supporting) utilization and temperature: a direct
    reading in watts is taken as it is and the fallback is not called; when
    the direct reading is unsupported the fallback is called and its
    milliwatts are divided by 1000 (45000 gives 45); when both are
    unsupported the power is absent; utilization and temperature are in all
    three cases what their own sub-readings give. *)
Theorem C3_power_two_tier (gpu : ADLDevice) (rest : list ADLDevice) (w : world) :
  tolerated (getCurrentUsage gpu) ->
  tolerated (getCurrentTemperature gpu) ->
  let lib := with_devices (gpu :: rest) in
  let u := sub_reading (getCurrentUsage gpu) in
  let t := sub_reading (getCurrentTemperature gpu) in
  let before := log w ++ [AdlGetInstance; AdlGetDevices;
                          DeviceCall 0 "getCurrentUsage";
                          DeviceCall 0 "getCurrentTemperature"] in
  (forall v, getCurrentPower gpu = Gives v ->
     get_amd_gpu_stats true lib w =
     (Returns (u, t, Some v),
      mkWorld (now w) (before ++ [DeviceCall 0 "getCurrentPower"]))) /\
  (forall mw, unsupported (getCurrentPower gpu) ->
     getCurrentPowerValue gpu = Gives mw ->
     get_amd_gpu_stats true lib w =
     (Returns (u, t, Some (mw / 1000)),
      mkWorld (now w) (before ++ [DeviceCall 0 "getCurrentPower";
                                  DeviceCall 0 "getCurrentPowerValue"]))) /\
  (unsupported (getCurrentPower gpu) ->
   unsupported (getCurrentPowerValue gpu) ->
     get_amd_gpu_stats true lib w =
     (Returns (u, t, None),
      mkWorld (now w) (before ++ [DeviceCall 0 "getCurrentPower";
                                  DeviceCall 0 "getCurrentPowerValue"]))) /\
  45000 / 1000 == 45.
Proof.
  intros Hu Ht lib u t before. subst lib u t before. unfold with_devices.
  destruct gpu as [u t p pv]. cbn in Hu, Ht. cbn [getCurrentUsage
    getCurrentTemperature getCurrentPower getCurrentPowerValue sub_reading].
  repeat split.
  - intros v ->. tolerate u; tolerate t; run_adapter; reflexivity.
  - intros mw Hp ->. unsupport Hp.
    tolerate u; tolerate t; run_adapter; reflexivity.
  - intros Hp Hv. unsupport Hp. unsupport Hv.
    tolerate u; tolerate t; run_adapter; reflexivity.
Qed.

(** The RX 460 of the examples, next to a second card: the fallback is used
    and its 45000 milliwatts are reported as 45 watts. *)
Lemma C3_power_two_tier_witness :
  tolerated (getCurrentUsage Demo.rx460) /\
  tolerated (getCurrentTemperature Demo.rx460) /\
  get_amd_gpu_stats true (with_devices [Demo.rx460; Demo.rx580]) blank =
  (Returns (Some 37, Some 52, Some (45000 / 1000)),
   mkWorld 0 [AdlGetInstance; AdlGetDevices;
              DeviceCall 0 "getCurrentUsage";
              DeviceCall 0 "getCurrentTemperature";
              DeviceCall 0 "getCurrentPower";
              DeviceCall 0 "getCurrentPowerValue"]).
Proof.
  split; [exact I|]. split; [exact I|].
  apply (proj1 (proj2 (C3_power_two_tier Demo.rx460 [Demo.rx580] blank I I))).
  - eexists. split; reflexivity.
  - reflexivity.
Defined.

(** What the adapter answers for a first device that answers or does not
    support each sub-reading: the metrics of that device, each from its own
    method, after one call of each of the three readings on index 0. *)
Lemma first_device_is_read (gpu : ADLDevice) (rest : list ADLDevice)
    (w : world) :
  answers_or_unsupported gpu ->
  exists evs,
    get_amd_gpu_stats true (with_devices (gpu :: rest)) w =
    (Returns (sub_reading (getCurrentUsage gpu),
              sub_reading (getCurrentTemperature gpu),
              power_reading gpu),
     mkWorld (now w) (log w ++ evs)) /\
    In (DeviceCall 0 "getCurrentUsage") evs /\
    In (DeviceCall 0 "getCurrentTemperature") evs /\
    In (DeviceCall 0 "getCurrentPower") evs.
Proof.
  unfold answers_or_unsupported, with_devices, power_reading.
  destruct gpu as [u t p pv].
  cbn [getCurrentUsage getCurrentTemperature getCurrentPower
       getCurrentPowerValue].
  intros [Hu [Ht [Hp Hpv]]].
  destruct p as [v | e].
  - tolerate u; tolerate t;
      (eexists; split; [run_adapter; reflexivity | cbn; intuition]).
  - assert (Hv : tolerated pv).
    { apply Hpv. exists e. split; [reflexivity | exact Hp]. }
    clear Hpv. destruct e as [ce me]. destruct ce; cbn in Hp;
      try discriminate Hp.
    tolerate u; tolerate t; tolerate pv;
      (eexists; split; [run_adapter; reflexivity | cbn; intuition]).
Qed.

(** C10: after a successful enumeration the adapter reads the device of index
    0, and that device only.  It always asks that device for its utilization;
    when that device answers or does not support each sub-reading, the three
    metrics returned are those of that device, each from its own method,
    after a call of each of the three readings on index 0.  What the adapter
    answers and what it logs are the same whatever the other enumerated
    devices are, every device call it makes addresses index 0, and so does
    every device call of a whole run of the sampling loop. *)
Theorem C10_first_device_only (avail : bool) (gpu : ADLDevice)
    (rest others : list ADLDevice) (w : world) :
  get_amd_gpu_stats avail (with_devices (gpu :: rest)) w =
  get_amd_gpu_stats avail (with_devices (gpu :: others)) w /\
  (forall lib, Forall on_first_device (snd (probe avail lib))) /\
  (forall h fuel duration interval df w',
     Forall on_first_device (log w) ->
     monitor_system h fuel duration interval w = (Returns df, w') ->
     Forall on_first_device (log w')) /\
  In (DeviceCall 0 "getCurrentUsage")
     (snd (probe true (with_devices (gpu :: rest)))) /\
  (answers_or_unsupported gpu ->
   exists evs,
     get_amd_gpu_stats true (with_devices (gpu :: rest)) w =
     (Returns (sub_reading (getCurrentUsage gpu),
               sub_reading (getCurrentTemperature gpu),
               power_reading gpu),
      mkWorld (now w) (log w ++ evs)) /\
     In (DeviceCall 0 "getCurrentUsage") evs /\
     In (DeviceCall 0 "getCurrentTemperature") evs /\
     In (DeviceCall 0 "getCurrentPower") evs).
Proof.
  assert (Hadapter : forall a lib, Forall on_first_device (snd (probe a lib))).
  { intros a lib. destruct (get_amd_gpu_stats_frame a lib) as [r [_ [H _]]].
    eapply Forall_impl; [|exact H].
    intros [] Hev; cbn in *; trivial. }
  split; [|split; [|split; [|split]]].
  - destruct avail; reflexivity.
  - apply Hadapter.
  - intros h fuel duration interval df w' Hw Hrun.
    rewrite monitor_system_unfold in Hrun.
    destruct (monitor_loop h fuel interval (now w + duration) []
                (mkWorld (now w) (log w ++ monitor_banner h duration)))
      as [[data | e | ] w1] eqn:Hloop; try discriminate Hrun.
    inversion Hrun; subst w1 df; clear Hrun.
    apply (monitor_loop_inv h interval (now w + duration)
             (fun _ w0 => Forall on_first_device (log w0)))
      in Hloop; [tauto | |].
    + intros data0 w0 H0 _ k. cbn [log]. apply Forall_app. split; [exact H0|].
      unfold tick_events. repeat (apply Forall_app; split).
      * repeat constructor.
      * apply Hadapter.
      * repeat constructor.
    + cbn [log]. apply Forall_app. split; [exact Hw|]. repeat constructor.
  - destruct gpu as [[u | [[] mu]] t p pv]; unfold probe, with_devices;
      destruct t as [vt | [[] mt]]; destruct p as [vp | [[] mp]];
      destruct pv as [vv | [[] mv]]; cbn; intuition.
  - apply first_device_is_read.
Qed.

(** A machine with two cards, the RX 580 first: the reading is that of the
    RX 580 (99 %, 81 degrees, 120 W), not that of the RX 460 behind it, and
    every device call of a run of two seconds addresses the first card. *)
Lemma C10_first_device_only_witness :
  answers_or_unsupported Demo.rx580 /\
  (exists evs,
     get_amd_gpu_stats true (with_devices [Demo.rx580; Demo.rx460]) blank =
     (Returns (Some 99, Some 81, Some 120), mkWorld 0 (log blank ++ evs)) /\
     In (DeviceCall 0 "getCurrentUsage") evs /\
     In (DeviceCall 0 "getCurrentTemperature") evs /\
     In (DeviceCall 0 "getCurrentPower") evs) /\
  Forall on_first_device (log blank) /\
  Forall on_first_device
    (log (snd (monitor_system
                 (Demo.machine true
                    (fun _ => with_devices [Demo.rx580; Demo.rx460])
                    EmptyString)
                 21 2 1 blank))).
Proof.
  assert (Hok : answers_or_unsupported Demo.rx580).
  { split; [exact I|]. split; [exact I|]. split; [exact I|].
    intros _. exact I. }
  split; [exact Hok|]. split.
  - exact (proj2 (proj2 (proj2 (proj2
             (C10_first_device_only true Demo.rx580 [Demo.rx460] [] blank))))
             Hok).
  - split; [constructor|].
    set (run := monitor_system _ 21 2 1 blank).
    assert (E : exists df, run = (Returns df, snd run)).
    { vm_compute. eexists. reflexivity. }
    destruct E as [df E].
    eapply (proj1 (proj2 (proj2
              (C10_first_device_only true Demo.rx580 [] [] blank)))).
    + constructor.
    + exact E.
Defined.

(** ** Claims about the sampling loop *)

Lemma records_pd_DataFrame (data : list sample) :
  records (pd_DataFrame data) = data.
Proof. now destruct data. Qed.

Lemma sample_of_fields (h : host) (k : nat) (t : Q) :
  gpu_fields (sample_of h k t) = reading_at h k /\
  cpu_util (sample_of h k t) = cpu_percent_value (tick_inputs h k).
Proof.
  unfold sample_of, gpu_fields. now destruct (reading_at h k) as [[u tp] p].
Qed.

Lemma or_NA_falsy (h : host) (v : option Q) :
  falsy v -> or_NA h v = "N/A"%string.
Proof.
  destruct v as [q | ]; cbn; [|reflexivity].
  intros Hq. apply Qeq_bool_iff in Hq. now rewrite Hq.
Qed.

Lemma or_NA_truthy (h : host) (q : Q) :
  ~ q == 0 -> or_NA h (Some q) = str_number h q.
Proof.
  intros Hq. cbn. destruct (Qeq_bool q 0) eqn:E; [|reflexivity].
  apply Qeq_bool_iff in E. now elim Hq.
Qed.

Lemma status_line_cells (h : host) (cpu : Q) (u tp p : option Q) :
  status_line h cpu u tp p =
  status_text (format_f h 1 cpu) (or_NA h u) (or_NA h tp) (power_display h p).
Proof. reflexivity. Qed.

Lemma status_text_contains_gpu (c g t p : string) :
  contains ("GPU: " ++ g ++ "%") (status_text c g t p).
Proof.
  exists (cr ++ "[CPU: " ++ c ++ "% | ")%string,
         (" | Temp: " ++ t ++ "°C | Power: " ++ p ++ "]")%string.
  unfold status_text. cbn [append].
  repeat (rewrite <- ?append_assoc; cbn [append]).
  induction c as [ | a c IH]; cbn [append].
  - induction g as [ | b g IHg]; cbn [append]; [reflexivity|].
    injection IHg as IHg. now rewrite IHg.
  - injection IH as IH. now rewrite IH.
Qed.

Lemma status_text_contains_temp (c g t p : string) :
  contains ("Temp: " ++ t ++ "°C") (status_text c g t p).
Proof.
  exists (cr ++ "[CPU: " ++ c ++ "% | GPU: " ++ g ++ "% | ")%string,
         (" | Power: " ++ p ++ "]")%string.
  unfold status_text. cbn [append].
  induction c as [ | a c IH]; cbn [append].
  - induction g as [ | b g IHg]; cbn [append].
    + induction t as [ | d t IHt]; cbn [append]; [reflexivity|].
      injection IHt as IHt. now rewrite IHt.
    + injection IHg as IHg. now rewrite IHg.
  - injection IH as IH. now rewrite IH.
Qed.

(** C9: the status line that a tick writes has the placeholder in the cell
    of every utilization or temperature that is falsy, so also for a reading
    of exactly 0 (and the rendering of the value in the cell of every other
    reading), while the sample that the same tick appends stores the reading
    as it was returned; what is displayed plays no part in what is
    collected. *)
Theorem C9_placeholder_hides_zero (h : host) (interval : Q)
    (data : list sample) (w : world) (u tp p : option Q) :
  reading_at h (List.length data) = (u, tp, p) ->
  exists s w',
    tick h interval data w = (Returns (data ++ [s]), w') /\
    gpu_util s = u /\ gpu_temp s = tp /\ gpu_power s = p /\
    cpu_util s = cpu_percent_value (tick_inputs h (List.length data)) /\
    In (Print (status_line h (cpu_util s) u tp p)) (log w') /\
    In (Print (status_text (format_f h 1 (cpu_util s)) (or_NA h u)
                 (or_NA h tp) (power_display h p))) (log w') /\
    (falsy u ->
       or_NA h u = "N/A"%string /\
       status_line h (cpu_util s) u tp p =
       status_line h (cpu_util s) None tp p /\
       In (Print (status_text (format_f h 1 (cpu_util s)) "N/A"
                    (or_NA h tp) (power_display h p))) (log w') /\
       contains "GPU: N/A%" (status_line h (cpu_util s) u tp p)) /\
    (falsy tp ->
       or_NA h tp = "N/A"%string /\
       status_line h (cpu_util s) u tp p =
       status_line h (cpu_util s) u None p /\
       In (Print (status_text (format_f h 1 (cpu_util s)) (or_NA h u)
                    "N/A" (power_display h p))) (log w') /\
       contains "Temp: N/A°C" (status_line h (cpu_util s) u tp p)) /\
    (forall q, u = Some q -> ~ q == 0 -> or_NA h u = str_number h q) /\
    (forall q, tp = Some q -> ~ q == 0 -> or_NA h tp = str_number h q).
Proof.
  intros Hr. rewrite tick_spec. cbv zeta.
  set (k := List.length data) in *.
  exists (sample_of h k (now w)). eexists. split; [reflexivity|].
  destruct (sample_of_fields h k (now w)) as [Hf Hc].
  unfold gpu_fields in Hf. rewrite Hr in Hf. inversion Hf as [[Hu Ht Hp]].
  rewrite Hu, Ht, Hp.
  assert (Hin : In (Print (status_line h (cpu_util (sample_of h k (now w)))
                             u tp p))
                   (log (mkWorld (tick_end h interval k (now w))
                           (log w ++ tick_events h interval k (now w))))).
  { cbn [log]. apply in_or_app. right. unfold tick_events.
    apply in_or_app. right. apply in_or_app. right.
    unfold display_of. rewrite Hr, Hc. cbn. auto. }
  split; [reflexivity|]. split; [reflexivity|]. split; [reflexivity|].
  split; [exact Hc|]. split; [exact Hin|].
  split; [now rewrite <- status_line_cells|].
  split; [|split; [|split]].
  - intros Hfu. pose proof (or_NA_falsy h u Hfu) as HNA.
    split; [exact HNA|]. split.
    { unfold status_line. now rewrite HNA. }
    split.
    + rewrite <- HNA, <- status_line_cells. exact Hin.
    + rewrite status_line_cells, HNA.
      apply (status_text_contains_gpu _ "N/A").
  - intros Hft. pose proof (or_NA_falsy h tp Hft) as HNA.
    split; [exact HNA|]. split.
    { unfold status_line. now rewrite HNA. }
    split.
    + rewrite <- HNA, <- status_line_cells. exact Hin.
    + rewrite status_line_cells, HNA.
      apply (status_text_contains_temp _ _ "N/A").
  - intros q -> Hq. now apply or_NA_truthy.
  - intros q -> Hq. now apply or_NA_truthy.
Qed.

(** A card that reports 0 % and 0 degrees: the sample stores both zeros and
    the line written shows N/A in both cells. *)
Lemma C9_placeholder_hides_zero_witness :
  reading_at (Demo.machine true (fun _ => with_devices [Demo.idle]) EmptyString)
             (List.length (@nil sample)) = (Some 0, Some 0, Some 0) /\
  exists s w',
    tick (Demo.machine true (fun _ => with_devices [Demo.idle]) EmptyString)
         1 [] blank = (Returns ([] ++ [s]), w') /\
    gpu_util s = Some 0 /\ gpu_temp s = Some 0 /\
    In (Print (status_text "12.0" "N/A" "N/A" "0.0W")) (log w').
Proof.
  split; [reflexivity|].
  destruct (C9_placeholder_hides_zero
              (Demo.machine true (fun _ => with_devices [Demo.idle]) EmptyString)
              1 [] blank (Some 0) (Some 0) (Some 0) eq_refl)
    as [s [w' [H1 [H2 [H3 [_ [Hc [_ [_ [Hu _]]]]]]]]]].
  exists s, w'. split; [exact H1|]. split; [exact H2|]. split; [exact H3|].
  destruct (Hu (Qeq_refl 0)) as [_ [_ [Hin _]]].
  rewrite Hc in Hin. exact Hin.
Defined.

(** The events a run of [monitor_system] adds to the log, with an invariant
    of one's choice over them, the collected data and the clock. *)
Lemma monitor_system_inv (h : host) (fuel : nat) (duration interval : Q)
    (w : world) (P : list sample -> list event -> Q -> Prop) :
  P [] (monitor_banner h duration) (now w) ->
  (forall data evs t, P data evs t -> t < now w + duration ->
     let k := List.length data in
     P (data ++ [sample_of h k t]) (evs ++ tick_events h interval k t)
       (tick_end h interval k t)) ->
  forall df w',
    monitor_system h fuel duration interval w = (Returns df, w') ->
    exists evs, log w' = log w ++ evs /\
                P (records df) evs (now w') /\
                now w + duration <= now w'.
Proof.
  intros H0 Hstep df w' Hrun.
  rewrite monitor_system_unfold in Hrun.
  destruct (monitor_loop h fuel interval (now w + duration) []
              (mkWorld (now w) (log w ++ monitor_banner h duration)))
    as [[data | e | ] w1] eqn:Hloop; try discriminate Hrun.
  inversion Hrun; subst w1 df; clear Hrun.
  apply (monitor_loop_inv h interval (now w + duration)
           (fun data w1 => exists evs, log w1 = log w ++ evs /\
                                       P data evs (now w1))) in Hloop.
  - destruct Hloop as [[evs [Hlog HP]] Hend].
    exists evs. rewrite records_pd_DataFrame. auto.
  - intros data0 w0 [evs [Hlog HP]] Hlt k. cbn [now log].
    exists (evs ++ tick_events h interval k (now w0)). split.
    + rewrite Hlog. now rewrite app_assoc.
    + apply Hstep; assumption.
  - exists (monitor_banner h duration). cbn [now log]. auto.
Qed.

Lemma repeat_snoc {A} (a : A) (n : nat) : repeat a n ++ [a] = repeat a (S n).
Proof.
  induction n as [ | n IH]; [reflexivity|]. cbn. now rewrite IH.
Qed.

(** C8: every tick opens with the CPU sampling window of 0.1 and closes
    with a sleep of exactly max(0, interval - 0.1); a run holds one such
    window and one such sleep per collected sample; and when the window is
    not longer than the interval a tick lasts the interval plus the time the
    GPU read took. *)
Theorem C8_pacing (h : host) (fuel : nat) (duration interval : Q)
    (w : world) (df : DataFrame) (w' : world) :
  monitor_system h fuel duration interval w = (Returns df, w') ->
  (exists evs,
     log w' = log w ++ evs /\
     sleeps evs = repeat (py_max 0 (interval - 0.1)) (List.length (records df)) /\
     cpu_windows evs = repeat 0.1 (List.length (records df))) /\
  (forall data w0, exists data' evs,
     tick h interval data w0 =
     (Returns data',
      mkWorld (tick_end h interval (List.length data) (now w0))
              (log w0 ++ CpuPercent 0.1 :: evs ++
               [Sleep (py_max 0 (interval - 0.1))]))) /\
  (0.1 <= interval -> py_max 0 (interval - 0.1) == interval - 0.1) /\
  (interval <= 0.1 -> py_max 0 (interval - 0.1) == 0) /\
  (forall k t, 0.1 <= interval ->
     tick_end h interval k t == t + interval + gpu_latency (tick_inputs h k)).
Proof.
  intros Hrun. repeat split.
  - apply (monitor_system_inv h fuel duration interval w
             (fun data evs _ =>
                sleeps evs = repeat (py_max 0 (interval - 0.1)) (List.length data) /\
                cpu_windows evs = repeat 0.1 (List.length data))) in Hrun.
    + destruct Hrun as [evs [Hlog [[Hs Hc] _]]]. now exists evs.
    + now split.
    + intros data evs t [Hs Hc] _ k.
      rewrite sleeps_app, cpu_windows_app, tick_events_sleeps,
        tick_events_cpu_windows, Hs, Hc, length_app, Nat.add_1_r.
      now rewrite !repeat_snoc.
  - intros data w0. rewrite tick_spec. cbv zeta. unfold tick_events.
    set (k := List.length data).
    exists (data ++ [sample_of h k (now w0)]).
    exists (gpu_events h k ++
            [Strftime "%H:%M:%S" (stamp_instant h k (now w0));
             Print (display_of h k)]).
    cbn [app]. rewrite <- app_assoc. reflexivity.
  - apply py_max_pace.
  - apply py_max_short.
  - intros k t Hi. unfold tick_end, stamp_instant.
    rewrite (py_max_pace interval Hi). lra.
Qed.

(** A run of two seconds at one sample per second: two windows of 0.1 and
    two sleeps of 0.9. *)
Lemma C8_pacing_witness :
  exists df w' evs,
    monitor_system (Demo.machine true (fun _ => with_devices [Demo.rx460])
                      EmptyString) 21 2 1 blank = (Returns df, w') /\
    log w' = log blank ++ evs /\
    sleeps evs = repeat (py_max 0 (1 - 0.1)) (List.length (records df)) /\
    List.length (records df) = 2%nat.
Proof.
  set (run := monitor_system _ 21 2 1 blank).
  assert (E : exists df, run = (Returns df, snd run) /\
                         List.length (records df) = 2%nat).
  { vm_compute. eexists. split; reflexivity. }
  destruct E as [df [E Hn]].
  destruct (C8_pacing _ _ _ _ _ _ _ E) as [[evs [Hlog [Hs _]]] _].
  exists df, (snd run), evs. auto.
Defined.

(** C7 fails as it is stated: a run of 20 seconds at one sample per second
    stamps its samples from 0.1 to 19.1 seconds after the start of the loop
    when the GPU reads take no time, a span of 19 seconds, and from 0.101 to
    19.120 seconds when each takes a millisecond, a span of 19.019 seconds;
    neither is in [20, 21). *)
Lemma C7_span_counterexample :
  1 <= 20 /\
  (exists df, fst (monitor_system Demo.steady 201 20 1 blank) = Returns df /\
              List.length (records df) = 20%nat) /\
  span (stamps (log (snd (monitor_system Demo.steady 201 20 1 blank)))) == 19 /\
  ~ (20 <= span (stamps (log (snd (monitor_system Demo.steady 201 20 1 blank))))
     /\ span (stamps (log (snd (monitor_system Demo.steady 201 20 1 blank))))
        < 20 + 1) /\
  span (stamps (log (snd (monitor_system Demo.unhurried 201 20 1 blank))))
  == 19.019 /\
  ~ (20 <= span (stamps (log (snd (monitor_system Demo.unhurried 201 20 1
                                     blank))))
     /\ span (stamps (log (snd (monitor_system Demo.unhurried 201 20 1
                                   blank))))
        < 20 + 1).
Proof.
  split; [discriminate|]. split; [|split; [|split; [|split]]].
  - vm_compute. eexists. split; reflexivity.
  - vm_compute. reflexivity.
  - intros [H _]. vm_compute in H. apply H. reflexivity.
  - vm_compute. reflexivity.
  - intros [H _]. vm_compute in H. apply H. reflexivity.
Qed.

Lemma length_snoc_pred {A} (l : list A) (a : A) :
  (List.length (l ++ [a]) - 1)%nat = List.length l.
Proof. rewrite length_app. cbn. lia. Qed.

(** C7, amended: the loop returns at the first test of its condition at
    which the wall clock has advanced by the duration D at least.  With an
    interval I of 0.1 at least and at most D, it returns before D + I plus
    the time the GPU read of the last tick took, and the stamps of the
    samples span the elapsed time less I and less the time the GPU read of
    the first tick took.  With GPU reads that take no time, the elapsed time
    is in [D, D + I) and the span of the stamps in [D - I, D). *)
Theorem C7_run_length (h : host) (fuel : nat) (duration interval : Q)
    (w : world) :
  nonneg_latency h ->
  (enough_fuel duration <= fuel)%nat ->
  exists df w' evs,
    monitor_system h fuel duration interval w = (Returns df, w') /\
    log w' = log w ++ evs /\
    duration <= now w' - now w /\
    (0.1 <= interval -> interval <= duration ->
       now w' - now w <
         duration + interval +
         gpu_latency (tick_inputs h (List.length (records df) - 1)) /\
       span (stamps evs) ==
         now w' - now w - interval - gpu_latency (tick_inputs h 0)) /\
    (instant_gpu h -> 0.1 <= interval -> interval <= duration ->
       now w' - now w < duration + interval /\
       span (stamps evs) == now w' - now w - interval /\
       duration - interval <= span (stamps evs) /\
       span (stamps evs) < duration).
Proof.
  intros Hlat Hfuel.
  destruct (monitor_system_returns h fuel duration interval w Hlat Hfuel)
    as [data [w' [_ Hrun]]].
  exists (pd_DataFrame data), w'.
  pose proof Hrun as Hinv.
  apply (monitor_system_inv h fuel duration interval w
    (fun data evs t =>
       0.1 <= interval -> interval <= duration ->
       (data = [] /\ stamps evs = [] /\ t == now w) \/
       (stamps evs <> [] /\
        hd 0 (stamps evs) == now w + 0.1 + gpu_latency (tick_inputs h 0) /\
        last (stamps evs) 0 == t - interval + 0.1 /\
        t - interval - gpu_latency (tick_inputs h (List.length data - 1))
        < now w + duration))) in Hinv.
  - destruct Hinv as [evs [Hlog [HP Hend]]].
    exists evs. split; [exact Hrun|]. split; [exact Hlog|].
    split; [lra|].
    assert (Hgen : 0.1 <= interval -> interval <= duration ->
       now w' - now w <
         duration + interval +
         gpu_latency (tick_inputs h (List.length (records (pd_DataFrame data)) - 1)) /\
       span (stamps evs) ==
         now w' - now w - interval - gpu_latency (tick_inputs h 0)).
    { intros Hi Hd.
      destruct (HP Hi Hd) as [[_ [_ Ht]] | [_ [Hhd [Hls Hlt]]]]; [lra|].
      unfold span. split; lra. }
    split; [exact Hgen|].
    intros Hgpu Hi Hd. destruct (Hgen Hi Hd) as [He Hs].
    pose proof (Hgpu (List.length (records (pd_DataFrame data)) - 1)%nat) as Hl.
    pose proof (Hgpu O) as H0.
    repeat split; lra.
  - intros Hi Hd. left. repeat split; reflexivity.
  - intros data0 evs t HP Hlt k Hi Hd.
    assert (Hend : tick_end h interval k t ==
                   stamp_instant h k t + interval - 0.1).
    { unfold tick_end. rewrite (py_max_pace interval Hi). lra. }
    right. rewrite stamps_app, tick_events_stamps, last_last, length_snoc_pred.
    fold k.
    split; [intros Hnil; symmetry in Hnil; exact (app_cons_not_nil _ _ _ Hnil)|].
    destruct (HP Hi Hd) as [[Hdata [Hnil Ht]] | [Hne [Hhd [Hls Hprev]]]].
    + rewrite Hnil. cbn [app hd]. subst data0. subst k. cbn [List.length] in *.
      unfold stamp_instant in *. repeat split; lra.
    + split; [|split].
      * destruct (stamps evs) as [ | s0 ss]; [now elim Hne|exact Hhd].
      * lra.
      * unfold stamp_instant in *. lra.
Qed.

(** The run of 20 seconds at one sample per second on the machine whose GPU
    reads take a millisecond. *)
Lemma C7_run_length_witness :
  nonneg_latency Demo.unhurried /\
  (enough_fuel 20 <= 201)%nat /\
  exists df w' evs,
    monitor_system Demo.unhurried 201 20 1 blank = (Returns df, w') /\
    log w' = log blank ++ evs /\
    20 <= now w' - now blank /\
    span (stamps evs) ==
      now w' - now blank - 1 - gpu_latency (tick_inputs Demo.unhurried 0).
Proof.
  assert (Hlat : nonneg_latency Demo.unhurried).
  { intros k. cbn. discriminate. }
  assert (Hfuel : (enough_fuel 20 <= 201)%nat).
  { vm_compute. apply le_n. }
  split; [exact Hlat|]. split; [exact Hfuel|].
  destruct (C7_run_length Demo.unhurried 201 20 1 blank Hlat Hfuel)
    as [df [w' [evs [H1 [H2 [H3 [H4 _]]]]]]].
  exists df, w', evs. repeat split; trivial.
  apply H4; discriminate.
Defined.

(** ** A failure on one tick *)

Lemma agree_except_snoc (k : nat) (l1 l2 : list sample) (s1 s2 : sample) :
  agree_except k l1 l2 ->
  (List.length l1 <> k -> s1 = s2) ->
  agree_except k (l1 ++ [s1]) (l2 ++ [s2]).
Proof.
  intros [Hlen Hnth] Hs. split.
  - rewrite !length_app. cbn. lia.
  - intros j Hj.
    destruct (Nat.lt_ge_cases j (List.length l1)) as [Hlt | Hge].
    + rewrite !nth_error_app1 by lia. now apply Hnth.
    + rewrite !nth_error_app2 by lia. rewrite <- Hlen.
      destruct (Nat.eq_dec j (List.length l1)) as [-> | Hne].
      * rewrite Hs by exact Hj. reflexivity.
      * destruct (j - List.length l1)%nat as [ | [ | n]] eqn:E; try lia;
          reflexivity.
Qed.

Lemma same_but_adl_at_tick (k : nat) (h1 h2 : host) (interval : Q)
    (n : nat) (t : Q) :
  same_but_adl_at k h1 h2 ->
  tick_end h1 interval n t = tick_end h2 interval n t /\
  (n <> k -> sample_of h1 n t = sample_of h2 n t).
Proof.
  intros [Ha [Hl [Hc [Hg Hadl]]]]. split.
  - unfold tick_end, stamp_instant. now rewrite Hg.
  - intros Hn. unfold sample_of, reading_at, stamp_instant.
    now rewrite Ha, Hl, Hc, Hg, (Hadl n Hn).
Qed.

(** Two hosts that differ in the state of the library on tick [k] only run
    the loop in step: same clock, same samples on every other tick. *)
Lemma monitor_loop_same_but (k : nat) (h1 h2 : host) (interval end_time : Q) :
  same_but_adl_at k h1 h2 ->
  forall fuel data1 data2 w1 w2 r1 w1',
    agree_except k data1 data2 -> now w1 = now w2 ->
    monitor_loop h1 fuel interval end_time data1 w1 = (Returns r1, w1') ->
    exists r2 w2',
      monitor_loop h2 fuel interval end_time data2 w2 = (Returns r2, w2') /\
      agree_except k r1 r2 /\ now w1' = now w2'.
Proof.
  intros Hsame. induction fuel as [ | fuel IH];
    intros data1 data2 w1 w2 r1 w1' Hagree Hnow Hrun.
  - discriminate Hrun.
  - rewrite monitor_loop_S in Hrun. rewrite monitor_loop_S.
    rewrite <- Hnow.
    destruct (Qlt_bool (now w1) end_time).
    + cbv zeta in *.
      destruct (same_but_adl_at_tick k h1 h2 interval (List.length data1)
                  (now w1) Hsame) as [Hend Hsample].
      destruct Hagree as [Hlen Hnth]. rewrite <- Hlen.
      eapply IH; [ | | exact Hrun].
      * apply agree_except_snoc; [now split | exact Hsample].
      * cbn [now]. exact Hend.
    + inversion Hrun; subst. exists data2, w2. auto.
Qed.

Lemma nth_error_snoc {A} (l : list A) (a : A) (j : nat) (x : A) :
  nth_error (l ++ [a]) j = Some x ->
  (j < List.length l)%nat /\ nth_error l j = Some x \/
  j = List.length l /\ x = a.
Proof.
  intros H. destruct (Nat.lt_ge_cases j (List.length l)) as [Hlt | Hge].
  - left. rewrite nth_error_app1 in H by exact Hlt. auto.
  - right. rewrite nth_error_app2 in H by exact Hge.
    destruct (j - List.length l)%nat as [ | [ | n]] eqn:E; cbn in H;
      try discriminate H.
    inversion H. split; [lia | reflexivity].
Qed.

(** Every collected sample carries the reading of its own tick, and the
    calls of that reading are in the log. *)
Lemma samples_carry_readings (h : host) (fuel : nat) (duration interval : Q)
    (w : world) (df : DataFrame) (w' : world) :
  monitor_system h fuel duration interval w = (Returns df, w') ->
  forall j s, nth_error (records df) j = Some s ->
    gpu_fields s = reading_at h j /\
    cpu_util s = cpu_percent_value (tick_inputs h j) /\
    incl (gpu_events h j) (log w').
Proof.
  intros Hrun.
  apply (monitor_system_inv h fuel duration interval w
    (fun data evs _ =>
       forall j s, nth_error data j = Some s ->
         gpu_fields s = reading_at h j /\
         cpu_util s = cpu_percent_value (tick_inputs h j) /\
         incl (gpu_events h j) evs)) in Hrun.
  - destruct Hrun as [evs [Hlog [HP _]]]. intros j s Hj.
    destruct (HP j s Hj) as [H1 [H2 H3]]. repeat split; trivial.
    rewrite Hlog. now apply incl_appr.
  - intros [ | j] s Hj; discriminate Hj.
  - intros data evs t HP _ k j s Hj.
    apply nth_error_snoc in Hj. destruct Hj as [[_ Hj] | [-> ->]].
    + destruct (HP j s Hj) as [H1 [H2 H3]]. repeat split; trivial.
      now apply incl_appl.
    + destruct (sample_of_fields h k t) as [H1 H2]. repeat split; trivial.
      apply incl_appr. unfold tick_events. apply incl_appr, incl_appl.
      apply incl_refl.
Qed.

(** C2: an unexpected failure of the library on tick [k] is caught inside
    the adapter, which writes the diagnostic and answers all-absent; no call
    of the adapter raises, whatever the library does; the run of the loop
    completes, the sample of tick [k] has its three GPU fields absent and
    the diagnostic is in the log; and every other tick collects the sample it
    would have collected had the library behaved otherwise on tick [k]. *)
Theorem C2_failure_absorbed (h : host) (k : nat) (e : exc) (fuel : nat)
    (duration interval : Q) (w : world) :
  amd_gpu_available h = true ->
  unexpected_failure (adl (tick_inputs h k)) e ->
  nonneg_latency h ->
  (enough_fuel duration <= fuel)%nat ->
  (forall w0, exists evs,
     get_amd_gpu_stats true (adl (tick_inputs h k)) w0 =
     (Returns all_absent, mkWorld (now w0) (log w0 ++ evs)) /\
     In (diagnostic e) evs) /\
  (forall avail lib w0, exists r evs,
     get_amd_gpu_stats avail lib w0 =
     (Returns r, mkWorld (now w0) (log w0 ++ evs))) /\
  exists data w',
    monitor_system h fuel duration interval w =
    (Returns (pd_DataFrame data), w') /\
    (forall s, nth_error data k = Some s ->
       gpu_util s = None /\ gpu_temp s = None /\ gpu_power s = None /\
       In (diagnostic e) (log w')) /\
    (forall h', same_but_adl_at k h h' ->
       exists data' w'',
         monitor_system h' fuel duration interval w =
         (Returns (pd_DataFrame data'), w'') /\
         agree_except k data data' /\ now w' = now w'').
Proof.
  intros Havail Hfail Hlat Hfuel.
  split; [|split].
  - intros w0. now apply unexpected_failure_absorbed.
  - intros avail lib w0. apply get_amd_gpu_stats_returns.
  - destruct (monitor_system_returns h fuel duration interval w Hlat Hfuel)
      as [data [w' [Hloop Hrun]]].
    exists data, w'. split; [exact Hrun|]. split.
    + intros s Hs.
      destruct (samples_carry_readings _ _ _ _ _ _ _ Hrun k s) as [Hf [_ Hev]].
      { now rewrite records_pd_DataFrame. }
      destruct (unexpected_failure_absorbed _ _ blank Hfail)
        as [evs [Hprobe Hin]].
      assert (Hr : reading_at h k = all_absent).
      { unfold reading_at, probe. now rewrite Havail, Hprobe. }
      assert (Hg : gpu_events h k = evs).
      { unfold gpu_events, probe. now rewrite Havail, Hprobe. }
      rewrite Hr in Hf. unfold gpu_fields, all_absent in Hf.
      inversion Hf. repeat split; trivial.
      apply Hev. now rewrite Hg.
    + intros h' Hsame.
      destruct (monitor_loop_same_but k h h' interval (now w + duration)
                  Hsame fuel [] []
                  (mkWorld (now w) (log w ++ monitor_banner h duration))
                  (mkWorld (now w) (log w ++ monitor_banner h' duration))
                  data w') as [data' [w'' [Hloop' [Hagree Hnow]]]];
        trivial.
      { split; [reflexivity|]. intros j _. reflexivity. }
      exists data', w''. split; [|now split].
      rewrite monitor_system_unfold, Hloop'. reflexivity.
Qed.

(** The run of 20 seconds at one sample per second, the library failing on
    the fifth tick. *)
Lemma C2_failure_absorbed_witness :
  amd_gpu_available Demo.flaky = true /\
  unexpected_failure (adl (tick_inputs Demo.flaky 4)) Demo.driver_crash /\
  nonneg_latency Demo.flaky /\
  (enough_fuel 20 <= 201)%nat /\
  exists data w',
    monitor_system Demo.flaky 201 20 1 blank =
    (Returns (pd_DataFrame data), w') /\
    (forall s, nth_error data 4 = Some s ->
       gpu_util s = None /\ gpu_temp s = None /\ gpu_power s = None /\
       In (diagnostic Demo.driver_crash) (log w')).
Proof.
  assert (Hfail : unexpected_failure (adl (tick_inputs Demo.flaky 4))
                    Demo.driver_crash).
  { apply fail_getInstance. reflexivity. }
  assert (Hlat : nonneg_latency Demo.flaky).
  { intros k. cbn. discriminate. }
  assert (Hfuel : (enough_fuel 20 <= 201)%nat).
  { vm_compute. apply le_n. }
  split; [reflexivity|]. split; [exact Hfail|].
  split; [exact Hlat|]. split; [exact Hfuel|].
  destruct (C2_failure_absorbed Demo.flaky 4 Demo.driver_crash 201 20 1 blank
              eq_refl Hfail Hlat Hfuel)
    as [_ [_ [data [w' [Hrun [Hk _]]]]]].
  exists data, w'. auto.
Defined.

(** The scenario of the specification, run: twenty samples, the fifth with
    its GPU fields absent, the sixth as every other. *)
Example failure_on_fifth_tick :
  exists df w',
    monitor_system Demo.flaky 201 20 1 blank = (Returns df, w') /\
    List.length (records df) = 20%nat /\
    option_map gpu_fields (nth_error (records df) 4) = Some all_absent /\
    option_map gpu_fields (nth_error (records df) 5) =
    Some (Some 37, Some 52, Some (45000 / 1000)).
Proof.
  set (run := monitor_system Demo.flaky 201 20 1 blank).
  assert (E : exists df, run = (Returns df, snd run) /\
                List.length (records df) = 20%nat /\
                option_map gpu_fields (nth_error (records df) 4) =
                Some all_absent /\
                option_map gpu_fields (nth_error (records df) 5) =
                Some (Some 37, Some 52, Some (45000 / 1000))).
  { vm_compute. eexists. repeat split; reflexivity. }
  destruct E as [df E]. exists df, (snd run). exact E.
Qed.

(** ** Claims about [main] *)

(** C5: without the GPU capability [main] writes its banner and the
    installation guidance and returns: the log grows by these seven writes
    to stdout and by nothing else (no CPU sampling, no stamp, no sleep, no
    prompt, no export), the clock does not move, and the fuel of the loop is
    not touched, so that the loop is never entered. *)
Theorem C5_no_gpu_no_run (h : host) (fuel : nat) (w : world) :
  amd_gpu_available h = false ->
  main h fuel w =
  (Returns tt, mkWorld (now w) (log w ++ main_banner ++ install_guidance)) /\
  Forall is_print (main_banner ++ install_guidance) /\
  cpu_windows (main_banner ++ install_guidance) = [] /\
  stamps (main_banner ++ install_guidance) = [] /\
  exports (main_banner ++ install_guidance) = [].
Proof.
  intros Havail. split.
  - unfold main. rewrite Havail.
    cbv [negb bind print emit]. cbn [now log].
    repeat rewrite <- app_assoc. reflexivity.
  - split; [repeat constructor | now repeat split].
Qed.

(** A machine without pyadl, and no fuel at all for the loop. *)
Lemma C5_no_gpu_no_run_witness :
  amd_gpu_available
    (Demo.machine false (fun _ => with_devices [Demo.rx460]) "s") = false /\
  main (Demo.machine false (fun _ => with_devices [Demo.rx460]) "s") 0 blank =
  (Returns tt, mkWorld 0 (main_banner ++ install_guidance)).
Proof.
  split; [reflexivity|].
  apply (proj1 (C5_no_gpu_no_run
                  (Demo.machine false (fun _ => with_devices [Demo.rx460]) "s")
                  0 blank eq_refl)).
Defined.

(** *** The report *)

Lemma df_getitem_ok {A} (name : string) (field : sample -> A)
    (s0 : sample) (rest : list sample) (w : world) :
  In name sample_keys ->
  df_getitem (pd_DataFrame (s0 :: rest)) name field w =
  (Returns (map field (s0 :: rest)), w).
Proof.
  intros Hin. unfold df_getitem. cbn [pd_DataFrame columns records].
  replace (existsb (String.eqb name) sample_keys) with true; [reflexivity|].
  symmetry. apply existsb_exists. exists name. split; [exact Hin|].
  apply String.eqb_refl.
Qed.








Lemma report_spec (h : host) (s0 : sample) (rest : list sample) (w : world) :
  amd_gpu_available h = true ->
  let data := s0 :: rest in
  report h (pd_DataFrame data) w =
  (Returns tt,
   mkWorld (now w)
     (log w ++
      [report_header;
       Print (cpu_mean_line h (series_mean (map Some (map cpu_util data)))
              ++ nl)%string;
       Print (gpu_report_line (map gpu_util data)
                (util_mean_line h) (util_unavailable) ++ nl)%string;
       Print (gpu_report_line (map gpu_temp data)
                (temp_mean_line h) (temp_unavailable) ++ nl)%string;
       Print (gpu_report_line (map gpu_power data)
                (power_mean_line h) (power_unavailable) ++ nl)%string])).
Proof.
  intros Havail data. subst data.
  unfold report, report_header, gpu_report_line.
  rewrite Havail.
  assert (K : forall name, In name (tl sample_keys) -> In name sample_keys).
  { intros name Hn. right. exact Hn. }
  cbv [bind print emit].
  repeat (rewrite df_getitem_ok by (apply K; cbn; tauto);
          cbv beta iota; cbn [now log]).
  destruct (isnull_all (map gpu_util (s0 :: rest)));
    cbv [negb]; cbv beta iota; cbn [now log];
    repeat (rewrite df_getitem_ok by (apply K; cbn; tauto);
            cbv beta iota; cbn [now log]);
    (destruct (isnull_all (map gpu_temp (s0 :: rest)));
     cbv [negb]; cbv beta iota; cbn [now log];
     repeat (rewrite df_getitem_ok by (apply K; cbn; tauto);
             cbv beta iota; cbn [now log]));
    (destruct (isnull_all (map gpu_power (s0 :: rest)));
     cbv [negb]; cbv beta iota; cbn [now log];
     repeat (rewrite df_getitem_ok by (apply K; cbn; tauto);
             cbv beta iota; cbn [now log]));
    repeat rewrite <- app_assoc; reflexivity.
Qed.



(** *** The prompt *)

Lemma lower_ascii_s (c : ascii) :
  lower_ascii c = "s"%char <-> c = "s"%char \/ c = "S"%char.
Proof.
  split.
  - destruct c as [[] [] [] [] [] [] [] []]; vm_compute; intros H;
      try discriminate H; auto.
  - intros [-> | ->]; reflexivity.
Qed.

Lemma lower_s (r : string) :
  lower r = "s"%string <-> r = "s"%string \/ r = "S"%string.
Proof.
  split.
  - destruct r as [ | c [ | c' r']]; cbn [lower]; intros H;
      try discriminate H.
    inversion H as [Hc]. apply lower_ascii_s in Hc.
    destruct Hc as [-> | ->]; auto.
  - intros [-> | ->]; reflexivity.
Qed.

Lemma length_append (a b : string) :
  String.length (a ++ b)%string = (String.length a + String.length b)%nat.
Proof.
  induction a as [ | c a IH]; cbn; [reflexivity | now rewrite IH].
Qed.

Lemma pad2_length (n : nat) :
  (n < 100)%nat -> String.length (pad2 n) = 2%nat.
Proof.
  intros H. do 100 (destruct n as [ | n]; [reflexivity|]). lia.
Qed.

Lemma decimal_year_length (y : nat) :
  (1000 <= Z.of_nat y <= 9999)%Z -> String.length (decimal y) = 4%nat.
Proof.
  intros H.
  assert (Hall : forallb (fun y => (String.length (decimal y) =? 4)%nat)
                   (seq (Z.to_nat 1000) (Z.to_nat 9000)) = true).
  { vm_compute. reflexivity. }
  rewrite forallb_forall in Hall. apply Nat.eqb_eq, Hall, in_seq. lia.
Qed.

(** The stamp of a file name has 15 characters: YYYYMMDD, an underscore,
    HHMMSS. *)
Lemma strftime_Ymd_HMS_length (tm : struct_time) :
  plausible_time tm -> String.length (strftime_Ymd_HMS tm) = 15%nat.
Proof.
  intros [Hy [Hm [Hd [HH [HM HS]]]]]. unfold strftime_Ymd_HMS.
  rewrite !length_append, decimal_year_length, !pad2_length by assumption.
  reflexivity.
Qed.

(** C6 fails as it is stated: a capital S is another input than s, and it
    triggers the export too. *)
Lemma C6_uppercase_counterexample :
  response Demo.shouting = "S"%string /\
  "S"%string <> "s"%string /\
  exists filename lines,
    exports (log (snd (save_prompt Demo.shouting (pd_DataFrame Demo.patchy)
                         blank))) = [(filename, lines)].
Proof.
  split; [reflexivity|]. split; [discriminate|].
  vm_compute. eexists. eexists. reflexivity.
Qed.

(** C6, amended: the answer is lowered before it is compared, so the
    export is triggered by s and by S, and by no other input.  The exported
    file has the header row timestamp,cpu_util,gpu_util,gpu_temp,gpu_power
    and one row per sample, and its name is rx460_monitor_, the date as
    YYYYMMDD, an underscore, the time as HHMMSS, and .csv, date and time being
    read when the answer is given (four digits for a year from 1000 to 9999,
    two for every other field). *)
Theorem C6_export_on_s (h : host) (s0 : sample) (rest : list sample)
    (w : world) :
  let df := pd_DataFrame (s0 :: rest) in
  let tm := localtime h (now w) in
  let filename := csv_filename (strftime_Ymd_HMS tm) in
  (lower (response h) = "s"%string <->
   response h = "s"%string \/ response h = "S"%string) /\
  (lower (response h) = "s"%string ->
   save_prompt h df w =
   (Returns tt,
    mkWorld (now w)
      (log w ++ [Input save_question;
                 Strftime "%Y%m%d_%H%M%S" (now w);
                 ToCsv filename (csv_lines h df);
                 Print (("Datos guardados en " ++ filename) ++ nl)%string]))) /\
  (lower (response h) <> "s"%string ->
   save_prompt h df w =
   (Returns tt, mkWorld (now w) (log w ++ [Input save_question]))) /\
  csv_lines h df =
    "timestamp,cpu_util,gpu_util,gpu_temp,gpu_power"%string ::
    map (csv_row h) (s0 :: rest) /\
  List.length (csv_lines h df) = S (List.length (s0 :: rest)) /\
  filename =
    ("rx460_monitor_" ++
     (decimal (tm_year tm) ++ pad2 (tm_mon tm) ++ pad2 (tm_mday tm) ++ "_" ++
      pad2 (tm_hour tm) ++ pad2 (tm_min tm) ++ pad2 (tm_sec tm)) ++
     ".csv")%string /\
  (plausible_time tm ->
   String.length (decimal (tm_year tm)) = 4%nat /\
   String.length (pad2 (tm_mon tm)) = 2%nat /\
   String.length (pad2 (tm_mday tm)) = 2%nat /\
   String.length (pad2 (tm_hour tm)) = 2%nat /\
   String.length (pad2 (tm_min tm)) = 2%nat /\
   String.length (pad2 (tm_sec tm)) = 2%nat /\
   String.length filename = 33%nat).
Proof.
  intros df tm filename. split; [apply lower_s|].
  split; [|split; [|split; [|split; [|split]]]].
  6:{ intros Hp. pose proof (strftime_Ymd_HMS_length tm Hp) as Hlen.
      destruct Hp as [Hy [Hm [Hd [HH [HM HS]]]]].
      repeat split; try (now apply pad2_length);
        try (now apply decimal_year_length).
      unfold filename, csv_filename. rewrite !length_append, Hlen.
      reflexivity. }
  - intros Hs. unfold save_prompt, input, to_csv, time_strftime.
    cbv [bind emit ret print]. cbn [now log]. rewrite Hs.
    cbn [String.eqb Ascii.eqb Bool.eqb]. cbv beta iota. cbn [now log].
    repeat rewrite <- app_assoc. reflexivity.
  - intros Hs. unfold save_prompt, input.
    cbv [bind emit ret]. cbn [now log].
    destruct (String.eqb_spec (lower (response h)) "s") as [E | _];
      [now elim Hs | reflexivity].
  - reflexivity.
  - unfold csv_lines. cbn [List.length]. now rewrite length_map.
  - reflexivity.
Qed.

(** A capital S at the prompt of the steady machine. *)
Lemma C6_export_on_s_witness :
  lower (response Demo.shouting) = "s"%string /\
  exports (log (snd (save_prompt Demo.shouting (pd_DataFrame Demo.patchy)
                       blank))) =
  [("rx460_monitor_20240101_000000.csv"%string,
    csv_lines Demo.shouting (pd_DataFrame Demo.patchy))].
Proof.
  split; [reflexivity|]. unfold Demo.patchy.
  rewrite (proj1 (proj2 (C6_export_on_s Demo.shouting
                           (mkSample "00:00:00" 10 None (Some 50) None)
                           [mkSample "00:00:01" 20 None None (Some 40)]
                           blank)) eq_refl).
  reflexivity.
Defined.

(** *** The whole of [main] *)

(** A run of a positive duration collects one sample at least. *)
Lemma monitor_system_nonempty (h : host) (fuel : nat) (duration interval : Q)
    (w : world) (df : DataFrame) (w' : world) :
  0 < duration ->
  monitor_system h fuel duration interval w = (Returns df, w') ->
  exists s0 rest, df = pd_DataFrame (s0 :: rest).
Proof.
  intros Hd Hrun. pose proof Hrun as Hinv.
  apply (monitor_system_inv h fuel duration interval w
           (fun data _ t => data = [] -> t == now w)) in Hinv.
  - destruct Hinv as [_ [_ [HP Hend]]].
    rewrite monitor_system_unfold in Hrun.
    destruct (monitor_loop h fuel interval (now w + duration) []
                (mkWorld (now w) (log w ++ monitor_banner h duration)))
      as [[data | e | ] w1]; try discriminate Hrun.
    inversion Hrun; subst df w1; clear Hrun.
    rewrite records_pd_DataFrame in HP.
    destruct data as [ | s0 rest]; [|now exists s0, rest].
    specialize (HP eq_refl). lra.
  - reflexivity.
  - intros data evs t _ _ k Hnil. now destruct data.
Qed.

(** With the GPU capability present, [main] monitors for 20 seconds at one
    sample per second, reports on the collection, which is not empty, and
    ends with the prompt. *)
Lemma main_with_gpu (h : host) (fuel : nat) (w : world) :
  amd_gpu_available h = true ->
  nonneg_latency h ->
  (enough_fuel 20 <= fuel)%nat ->
  exists s0 rest w1 w2,
    monitor_system h fuel 20 1 (mkWorld (now w) (log w ++ main_banner)) =
    (Returns (pd_DataFrame (s0 :: rest)), w1) /\
    report h (pd_DataFrame (s0 :: rest)) w1 = (Returns tt, w2) /\
    main h fuel w = save_prompt h (pd_DataFrame (s0 :: rest)) w2.
Proof.
  intros Havail Hlat Hfuel.
  destruct (monitor_system_returns h fuel 20 1
              (mkWorld (now w) (log w ++ main_banner)) Hlat Hfuel)
    as [data [w1 [_ Hrun]]].
  assert (Hpos : 0 < 20) by reflexivity.
  destruct (monitor_system_nonempty _ _ _ _ _ _ _ Hpos Hrun)
    as [s0 [rest Hdf]].
  rewrite Hdf in Hrun.
  exists s0, rest, w1. eexists.
  split; [exact Hrun|]. split; [now apply report_spec|].
  unfold main. rewrite Havail. cbv [negb].
  unfold bind at 1, print at 1, emit at 1.
  unfold bind at 1, print at 1, emit at 1.
  unfold bind at 1, print at 1, emit at 1. cbn [now log].
  unfold bind at 1.
  repeat rewrite <- app_assoc. cbn [app]. fold main_banner.
  unfold main_banner in *. rewrite Hrun.
  unfold bind at 1. rewrite report_spec by exact Havail. reflexivity.
Qed.

(** * Further properties of the script *)

(** ** The collection of a run *)

Lemma sample_of_timestamp (h : host) (k : nat) (t : Q) :
  timestamp (sample_of h k t) = stamp_text h (stamp_instant h k t).
Proof.
  unfold sample_of, stamp_text. now destruct (reading_at h k) as [[u tp] p].
Qed.

Lemma monitor_banner_silent (h : host) (duration : Q) :
  stamps (monitor_banner h duration) = [] /\
  sleeps (monitor_banner h duration) = [] /\
  cpu_windows (monitor_banner h duration) = [] /\
  adl_calls (monitor_banner h duration) = [].
Proof. now repeat split. Qed.

(** X1: the collection of a run holds one sample per stamp of the log, in the
    order of the ticks: the timestamp of a sample is the rendering of the
    instant of its stamp, its CPU value is the answer of psutil on its tick
    and its GPU fields are the reading of the adapter on its tick. *)
Theorem X1_collection_content (h : host) (fuel : nat) (duration interval : Q)
    (w : world) (df : DataFrame) (w' : world) :
  monitor_system h fuel duration interval w = (Returns df, w') ->
  exists evs,
    log w' = log w ++ evs /\
    map timestamp (records df) = map (stamp_text h) (stamps evs) /\
    map cpu_util (records df) =
      map (fun j => cpu_percent_value (tick_inputs h j))
          (seq 0 (List.length (records df))) /\
    map gpu_fields (records df) =
      map (reading_at h) (seq 0 (List.length (records df))).
Proof.
  intros Hrun.
  apply (monitor_system_inv h fuel duration interval w
    (fun data evs _ =>
       map timestamp data = map (stamp_text h) (stamps evs) /\
       map cpu_util data =
         map (fun j => cpu_percent_value (tick_inputs h j))
             (seq 0 (List.length data)) /\
       map gpu_fields data = map (reading_at h) (seq 0 (List.length data))))
    in Hrun.
  - destruct Hrun as [evs [Hlog [HP _]]]. now exists evs.
  - now repeat split.
  - intros data evs t [Ht [Hc Hg]] _ k.
    destruct (sample_of_fields h k t) as [Hf Hcpu].
    rewrite stamps_app, tick_events_stamps, length_app, Nat.add_1_r, seq_S.
    rewrite !map_app, Ht, Hc, Hg. cbn [map Nat.add].
    now rewrite sample_of_timestamp, Hf, Hcpu.
Qed.

(** A run of two seconds on the steady machine. *)
Lemma X1_collection_content_witness :
  exists df w' evs,
    monitor_system Demo.steady 21 2 1 blank = (Returns df, w') /\
    log w' = log blank ++ evs /\
    map timestamp (records df) = map (stamp_text Demo.steady) (stamps evs) /\
    map timestamp (records df) = ["00:00:00"%string; "00:00:01"%string].
Proof.
  set (run := monitor_system Demo.steady 21 2 1 blank).
  assert (E : exists df, run = (Returns df, snd run) /\
                map timestamp (records df) =
                ["00:00:00"%string; "00:00:01"%string]).
  { vm_compute. eexists. split; reflexivity. }
  destruct E as [df [E Hts]].
  destruct (X1_collection_content _ _ _ _ _ _ _ E) as [evs [Hlog [Ht _]]].
  exists df, (snd run), evs. auto.
Defined.

(** ** The number of samples *)

Lemma Qnat_S (n : nat) : Qnat (S n) == Qnat n + 1.
Proof.
  unfold Qnat. rewrite Nat2Z.inj_succ, <- Z.add_1_r, inject_Z_plus.
  reflexivity.
Qed.

Lemma Qnat_nonneg (n : nat) : 0 <= Qnat n.
Proof.
  unfold Qnat. change 0 with (inject_Z 0). rewrite <- Zle_Qle. lia.
Qed.

Lemma tick_end_interval (h : host) (interval : Q) (k : nat) (t : Q) :
  0.1 <= interval ->
  tick_end h interval k t == t + interval + gpu_latency (tick_inputs h k).
Proof.
  intros Hi. unfold tick_end, stamp_instant.
  rewrite (py_max_pace interval Hi). lra.
Qed.

(** X2: how many samples a run collects.  None when the duration is not
    positive, one at least otherwise.  Every tick but the last starts and ends
    before the duration has elapsed, and a tick takes a tenth of a second at
    least, and the interval at least when that is longer: so with [n] samples,
    [(n - 1) * 0.1] and [(n - 1) * interval] are below the duration.  When the
    GPU reads take no time, [n * interval] reaches the duration: [n] is the
    duration divided by the interval, rounded up. *)
Theorem X2_sample_count (h : host) (fuel : nat) (duration interval : Q)
    (w : world) :
  nonneg_latency h ->
  (enough_fuel duration <= fuel)%nat ->
  exists df w',
    monitor_system h fuel duration interval w = (Returns df, w') /\
    (duration <= 0 -> List.length (records df) = 0%nat) /\
    (0 < duration -> (1 <= List.length (records df))%nat) /\
    (forall m, List.length (records df) = S m ->
       Qnat m * 0.1 < duration /\
       (0.1 <= interval -> Qnat m * interval < duration)) /\
    (instant_gpu h -> 0.1 <= interval ->
       duration <= Qnat (List.length (records df)) * interval).
Proof.
  intros Hlat Hfuel.
  destruct (monitor_system_returns h fuel duration interval w Hlat Hfuel)
    as [data [w' [_ Hrun]]].
  exists (pd_DataFrame data), w'. split; [exact Hrun|].
  apply (monitor_system_inv h fuel duration interval w
    (fun data _ t =>
       now w + Qnat (List.length data) * 0.1 <= t /\
       (0.1 <= interval -> now w + Qnat (List.length data) * interval <= t) /\
       (instant_gpu h -> 0.1 <= interval ->
        t == now w + Qnat (List.length data) * interval) /\
       (List.length data = 0%nat -> t == now w) /\
       (forall m, List.length data = S m ->
          Qnat m * 0.1 < duration /\
          (0.1 <= interval -> Qnat m * interval < duration)))) in Hrun.
  - destruct Hrun as [evs [_ [[H1 [H2 [H3 [H4 H5]]]] Hend]]].
    set (n := List.length (records (pd_DataFrame data))) in *.
    split; [|split; [|split]].
    + intros Hd. destruct n as [ | m] eqn:En; [reflexivity|].
      destruct (H5 m eq_refl) as [Hm _].
      pose proof (Qnat_nonneg m). nra.
    + intros Hd. destruct n as [ | m]; [|lia]. specialize (H4 eq_refl). lra.
    + exact H5.
    + intros Hgpu Hi. specialize (H3 Hgpu Hi). lra.
  - cbn [List.length]. change (Qnat 0) with 0.
    split; [lra|]. split; [intros _; lra|]. split; [intros _ _; lra|].
    split; [intros _; lra | discriminate].
  - intros data0 evs t [H1 [H2 [H3 [H4 H5]]]] Hlt k. subst k.
    rewrite length_app, Nat.add_1_r.
    remember (List.length data0) as k eqn:Ek. clear Ek.
    pose proof (tick_end_advances h interval k t Hlat) as Hadv.
    pose proof (Hlat k) as Hk.
    split; [|split; [|split; [|split]]].
    + rewrite Qnat_S. lra.
    + intros Hi. rewrite Qnat_S, (tick_end_interval h interval k t Hi).
      specialize (H2 Hi). lra.
    + intros Hgpu Hi. rewrite Qnat_S, (tick_end_interval h interval k t Hi).
      rewrite (Hgpu k), (H3 Hgpu Hi). lra.
    + discriminate.
    + intros m Hm. injection Hm as <-. split; [lra|].
      intros Hi. specialize (H2 Hi). lra.
Qed.

(** The run of [main] on the steady machine: twenty samples. *)
Lemma X2_sample_count_witness :
  nonneg_latency Demo.steady /\
  (enough_fuel 20 <= 201)%nat /\
  exists df w',
    monitor_system Demo.steady 201 20 1 blank = (Returns df, w') /\
    List.length (records df) = 20%nat.
Proof.
  assert (Hlat : nonneg_latency Demo.steady).
  { intros k. cbn. discriminate. }
  assert (Hgpu : instant_gpu Demo.steady).
  { intros k. reflexivity. }
  assert (Hfuel : (enough_fuel 20 <= 201)%nat).
  { vm_compute. apply le_n. }
  split; [exact Hlat|]. split; [exact Hfuel|].
  destruct (X2_sample_count Demo.steady 201 20 1 blank Hlat Hfuel)
    as [df [w' [Hrun [_ [Hpos [Hlast Hreach]]]]]].
  exists df, w'. split; [exact Hrun|].
  assert (Hi : 0.1 <= 1) by discriminate.
  specialize (Hreach Hgpu Hi).
  destruct (List.length (records df)) as [ | m] eqn:En.
  - exfalso. revert Hreach. change (Qnat 0) with 0. intros Hreach. lra.
  - destruct (Hlast m eq_refl) as [_ Hm]. specialize (Hm Hi).
    rewrite Qnat_S in Hreach. unfold Qnat in *.
    assert (Hlo : (Z.of_nat m < 20)%Z).
    { rewrite Zlt_Qlt. change (inject_Z 20) with 20. lra. }
    assert (Hhi : (19 <= Z.of_nat m)%Z).
    { rewrite Zle_Qle. change (inject_Z 19) with 19. lra. }
    lia.
Defined.

(** X3: with a duration that is not positive the loop is not entered:
    [monitor_system] writes its two lines, makes no call and takes no time,
    and returns a frame without any record and without any column, so that
    every column lookup in it raises KeyError. *)
Theorem X3_no_time_no_sample (h : host) (fuel : nat)
    (duration interval : Q) (w : world) :
  duration <= 0 ->
  monitor_system h (S fuel) duration interval w =
  (Returns (pd_DataFrame []),
   mkWorld (now w) (log w ++ monitor_banner h duration)) /\
  records (pd_DataFrame []) = [] /\
  forall (name : string) (field : sample -> Q) (w0 : world),
    df_getitem (pd_DataFrame []) name field w0 =
    (Raises (mkExc KeyError name), w0).
Proof.
  intros Hd. split; [|split; reflexivity].
  rewrite monitor_system_unfold, monitor_loop_S. cbn [now].
  replace (Qlt_bool (now w) (now w + duration)) with false; [reflexivity|].
  symmetry. apply Qlt_bool_false. lra.
Qed.

(** A run of no second at all. *)
Lemma X3_no_time_no_sample_witness :
  0 <= 0 /\
  monitor_system Demo.steady 1 0 1 blank =
  (Returns (pd_DataFrame []), mkWorld 0 (monitor_banner Demo.steady 0)).
Proof.
  split; [discriminate|].
  apply (proj1 (X3_no_time_no_sample Demo.steady 0 0 1 blank
                  (Qle_refl 0))).
Defined.

(** ** Monitoring without the GPU capability *)

Lemma adl_calls_app (l1 l2 : list event) :
  adl_calls (l1 ++ l2) = adl_calls l1 ++ adl_calls l2.
Proof. apply flat_map_app. Qed.

Lemma printed_app (l1 l2 : list event) :
  printed (l1 ++ l2) = printed l1 ++ printed l2.
Proof. apply flat_map_app. Qed.

Lemma no_pyadl_no_read (h : host) (k : nat) :
  amd_gpu_available h = false ->
  reading_at h k = all_absent /\ gpu_events h k = [].
Proof.
  intros Hav. unfold reading_at, gpu_events, probe. rewrite Hav.
  split; reflexivity.
Qed.

(** X4: [monitor_system] itself does not need the GPU capability.  Without
    pyadl a run collects its samples all the same, each with its three GPU
    fields absent and its CPU value; it makes no call into the ADL library,
    and every line it displays shows the three placeholders. *)
Theorem X4_cpu_only_run (h : host) (fuel : nat) (duration interval : Q)
    (w : world) (df : DataFrame) (w' : world) :
  amd_gpu_available h = false ->
  monitor_system h fuel duration interval w = (Returns df, w') ->
  exists evs,
    log w' = log w ++ evs /\
    adl_calls evs = [] /\
    Forall (fun s => gpu_fields s = all_absent) (records df) /\
    map cpu_util (records df) =
      map (fun j => cpu_percent_value (tick_inputs h j))
          (seq 0 (List.length (records df))) /\
    printed evs =
      printed (monitor_banner h duration) ++
      map (fun s => status_line h (cpu_util s) None None None) (records df).
Proof.
  intros Hav Hrun.
  apply (monitor_system_inv h fuel duration interval w
    (fun data evs _ =>
       adl_calls evs = [] /\
       Forall (fun s => gpu_fields s = all_absent) data /\
       map cpu_util data =
         map (fun j => cpu_percent_value (tick_inputs h j))
             (seq 0 (List.length data)) /\
       printed evs =
         printed (monitor_banner h duration) ++
         map (fun s => status_line h (cpu_util s) None None None) data))
    in Hrun.
  - destruct Hrun as [evs [Hlog [HP _]]]. now exists evs.
  - split; [reflexivity|]. split; [constructor|]. split; [reflexivity|].
    cbn [map]. now rewrite app_nil_r.
  - intros data evs t [Hc [Hf [Hcpu Hp]]] _ k.
    destruct (no_pyadl_no_read h k Hav) as [Hr He].
    destruct (sample_of_fields h k t) as [Hsf Hsc].
    assert (Hev : tick_events h interval k t =
                  [CpuPercent 0.1;
                   Strftime "%H:%M:%S" (stamp_instant h k t);
                   Print (status_line h (cpu_percent_value (tick_inputs h k))
                            None None None);
                   Sleep (py_max 0 (interval - 0.1))]).
    { unfold tick_events, display_of. rewrite He, Hr. reflexivity. }
    rewrite Hev, adl_calls_app, printed_app, Hc, Hp.
    split; [reflexivity|]. split; [|split].
    + apply Forall_app. split; [exact Hf|]. constructor; [|constructor].
      now rewrite Hsf.
    + rewrite length_app, Nat.add_1_r, seq_S, !map_app, Hcpu. cbn [map Nat.add].
      now rewrite Hsc.
    + rewrite map_app, <- app_assoc. cbn [map printed flat_map app].
      now rewrite Hsc.
Qed.

(** Two seconds on the machine without pyadl. *)
Lemma X4_cpu_only_run_witness :
  amd_gpu_available Demo.cpu_only = false /\
  exists df w' evs,
    monitor_system Demo.cpu_only 21 2 1 blank = (Returns df, w') /\
    log w' = log blank ++ evs /\
    adl_calls evs = [] /\
    Forall (fun s => gpu_fields s = all_absent) (records df) /\
    List.length (records df) = 2%nat.
Proof.
  split; [reflexivity|].
  set (run := monitor_system Demo.cpu_only 21 2 1 blank).
  assert (E : exists df, run = (Returns df, snd run) /\
                         List.length (records df) = 2%nat).
  { vm_compute. eexists. split; reflexivity. }
  destruct E as [df [E Hn]].
  destruct (X4_cpu_only_run Demo.cpu_only 21 2 1 blank df (snd run)
              eq_refl E) as [evs [Hlog [Hc [Hf _]]]].
  exists df, (snd run), evs. auto.
Defined.

(** ** What a read writes and which calls it makes *)

(** The diagnostic of an unexpected failure is all that its read writes. *)
Lemma failure_prints_once (lib : pyadl) (e : exc) :
  unexpected_failure lib e ->
  printed (snd (probe true lib)) = [(gpu_error_message e ++ nl)%string].
Proof.
  intros Hfail.
  destruct lib as [inst].
  destruct Hfail as [H | m H1 H2 | m gpu rest H1 H2 Hu | m gpu rest H1 H2 Hu Ht
        | m gpu rest H1 H2 Hu Ht Hp | m gpu rest H1 H2 Hu Ht Hp Hv];
    cbn in H1 || cbn in H; subst inst;
    try (destruct m as [devs]; cbn in H2; subst devs);
    try destruct gpu as [u t p pv]; cbn in *.
  - reflexivity.
  - reflexivity.
  - break Hu; reflexivity.
  - break Ht; tolerate u; reflexivity.
  - break Hp; tolerate u; tolerate t; reflexivity.
  - unsupport Hp; break Hv; tolerate u; tolerate t; reflexivity.
Qed.

(** X5: a read writes to stdout once or not at all.  With an unexpected
    failure it writes the diagnostic of that failure, and nothing else; a
    read that writes anything has met an unexpected failure and answers
    all-absent; a read that answers any metric writes nothing. *)
Theorem X5_one_diagnostic_per_failure (lib : pyadl) :
  (forall e, unexpected_failure lib e ->
     printed (snd (probe true lib)) = [(gpu_error_message e ++ nl)%string]) /\
  (printed (snd (probe true lib)) <> [] ->
     fst (probe true lib) = Returns all_absent /\
     exists e, unexpected_failure lib e) /\
  (forall w r w',
     get_amd_gpu_stats true lib w = (Returns r, w') ->
     r <> all_absent -> printed (log w') = printed (log w)).
Proof.
  split; [|split].
  - intros e. apply failure_prints_once.
  - intros Hne.
    destruct (silent_or_unexpected_failure lib) as [Hs | [e He]];
      [now elim Hne|].
    split; [|now exists e].
    destruct (unexpected_failure_absorbed lib e blank He) as [evs [Hrun _]].
    unfold probe. now rewrite Hrun.
  - intros w r w' Hrun Hr.
    destruct (get_amd_gpu_stats_frame true lib) as [r0 [Hr0 [_ Hframe]]].
    rewrite Hframe in Hrun. inversion Hrun; subst r0 w'; clear Hrun.
    cbn [log]. rewrite printed_app.
    destruct (silent_or_unexpected_failure lib) as [Hs | [e He]].
    + rewrite Hs. apply app_nil_r.
    + exfalso. apply Hr.
      destruct (unexpected_failure_absorbed lib e blank He) as [evs [Hrun _]].
      unfold probe in Hr0. rewrite Hrun in Hr0. cbn in Hr0. congruence.
Qed.

(** The library that fails at its first step, and the RX 460. *)
Lemma X5_one_diagnostic_per_failure_witness :
  unexpected_failure Demo.broken Demo.driver_crash /\
  printed (snd (probe true Demo.broken)) =
  [(gpu_error_message Demo.driver_crash ++ nl)%string].
Proof.
  assert (Hfail : unexpected_failure Demo.broken Demo.driver_crash).
  { apply fail_getInstance. reflexivity. }
  split; [exact Hfail|].
  apply (proj1 (X5_one_diagnostic_per_failure Demo.broken) _ Hfail).
Defined.

Ltac initial_segment :=
  first
    [ exists 1%nat; split; [lia | reflexivity]
    | exists 2%nat; split; [lia | reflexivity]
    | exists 3%nat; split; [lia | reflexivity]
    | exists 4%nat; split; [lia | reflexivity]
    | exists 5%nat; split; [lia | reflexivity]
    | exists 6%nat; split; [lia | reflexivity] ].

(** X6: a read calls the library in a fixed order and calls no step twice:
    its calls are the first steps, one at least, of getInstance, getDevices,
    getCurrentUsage, getCurrentTemperature, getCurrentPower and
    getCurrentPowerValue on the device of index 0; without the capability it
    calls nothing. *)
Theorem X6_calls_in_order (lib : pyadl) :
  (exists n, (1 <= n <= 6)%nat /\
     adl_calls (snd (probe true lib)) = firstn n longest_read) /\
  adl_calls (snd (probe false lib)) = [] /\
  NoDup (adl_calls (snd (probe true lib))).
Proof.
  assert (Hseg : exists n, (1 <= n <= 6)%nat /\
            adl_calls (snd (probe true lib)) = firstn n longest_read).
  { destruct lib as [[[[ds | e]] | e]].
    - destruct ds as [ | [u t p pv] rest]; [initial_segment|].
      split_reply u; split_reply t; split_reply p; split_reply pv;
        initial_segment.
    - initial_segment.
    - initial_segment. }
  split; [exact Hseg|]. split; [reflexivity|].
  destruct Hseg as [n [Hn ->]].
  assert (Hnd : NoDup longest_read).
  { unfold longest_read.
    repeat (constructor; [cbn; intuition discriminate|]). constructor. }
  clear Hn. revert n. induction Hnd as [ | x l Hx Hl IH]; intros [ | n];
    cbn [firstn]; try constructor.
  - intros Hin. apply Hx. rewrite <- (firstn_skipn n l).
    apply in_or_app. now left.
  - apply IH.
Qed.

(** ** What a run writes to stdout *)

Lemma tick_events_printed (h : host) (interval : Q) (k : nat) (t : Q) :
  printed (tick_events h interval k t) = tick_output h k.
Proof.
  unfold tick_events, tick_output. rewrite !printed_app. reflexivity.
Qed.

(** X7: the stdout of a run, line by line: the two lines of the banner,
    then for every tick, in order, its status line, preceded by the
    diagnostic of its read when, and only when, that read met an unexpected
    failure: a tick whose read fails writes the diagnostic of the failure and
    then its status line, a tick whose read does not fail, and every tick of
    a run without the capability, writes its status line only. *)
Theorem X7_run_transcript (h : host) (fuel : nat) (duration interval : Q)
    (w : world) (df : DataFrame) (w' : world) :
  monitor_system h fuel duration interval w = (Returns df, w') ->
  (exists evs,
     log w' = log w ++ evs /\
     printed evs =
       printed (monitor_banner h duration) ++
       flat_map (tick_output h) (seq 0 (List.length (records df)))) /\
  (forall j,
     tick_output h j = [display_of h j] \/
     exists e,
       amd_gpu_available h = true /\
       unexpected_failure (adl (tick_inputs h j)) e /\
       tick_output h j =
         [(gpu_error_message e ++ nl)%string; display_of h j]) /\
  (forall j e,
     amd_gpu_available h = true ->
     unexpected_failure (adl (tick_inputs h j)) e ->
     tick_output h j =
       [(gpu_error_message e ++ nl)%string; display_of h j]) /\
  (forall j,
     (forall e, ~ unexpected_failure (adl (tick_inputs h j)) e) ->
     tick_output h j = [display_of h j]) /\
  (amd_gpu_available h = false ->
   forall j, tick_output h j = [display_of h j]).
Proof.
  intros Hrun.
  assert (Hfail : forall j e,
            amd_gpu_available h = true ->
            unexpected_failure (adl (tick_inputs h j)) e ->
            tick_output h j =
              [(gpu_error_message e ++ nl)%string; display_of h j]).
  { intros j e Hav He. unfold tick_output, gpu_events. rewrite Hav.
    now rewrite (failure_prints_once _ _ He). }
  assert (Hoff : amd_gpu_available h = false ->
                 forall j, tick_output h j = [display_of h j]).
  { intros Hav j. unfold tick_output.
    destruct (no_pyadl_no_read h j Hav) as [_ ->]. reflexivity. }
  split; [|split; [|split; [|split]]].
  - apply (monitor_system_inv h fuel duration interval w
      (fun data evs _ =>
         printed evs =
           printed (monitor_banner h duration) ++
           flat_map (tick_output h) (seq 0 (List.length data)))) in Hrun.
    + destruct Hrun as [evs [Hlog [HP _]]]. now exists evs.
    + cbn [List.length seq flat_map]. now rewrite app_nil_r.
    + intros data evs t HP _ k.
      rewrite printed_app, tick_events_printed, HP, length_app, Nat.add_1_r,
        seq_S, flat_map_app, <- app_assoc.
      cbn [flat_map Nat.add]. now rewrite app_nil_r.
  - intros j. destruct (amd_gpu_available h) eqn:Hav.
    + destruct (silent_or_unexpected_failure (adl (tick_inputs h j)))
        as [Hs | [e He]].
      * left. unfold tick_output, gpu_events. rewrite Hav. now rewrite Hs.
      * right. exists e. split; [reflexivity|]. split; [exact He|].
        now apply Hfail.
    + left. now apply Hoff.
  - exact Hfail.
  - intros j Hnone. destruct (amd_gpu_available h) eqn:Hav.
    + destruct (silent_or_unexpected_failure (adl (tick_inputs h j)))
        as [Hs | [e He]].
      * unfold tick_output, gpu_events. rewrite Hav. now rewrite Hs.
      * now elim (Hnone e).
    + now apply Hoff.
  - exact Hoff.
Qed.

(** Six seconds on the machine whose fifth read fails: nine lines, the
    fifth tick writing the diagnostic of the failure before its status
    line. *)
Lemma X7_run_transcript_witness :
  exists df w' evs,
    monitor_system Demo.flaky 61 6 1 blank = (Returns df, w') /\
    log w' = log blank ++ evs /\
    printed evs =
      printed (monitor_banner Demo.flaky 6) ++
      flat_map (tick_output Demo.flaky) (seq 0 (List.length (records df))) /\
    List.length (printed evs) = 9%nat /\
    tick_output Demo.flaky 4 =
      [(gpu_error_message Demo.driver_crash ++ nl)%string;
       display_of Demo.flaky 4].
Proof.
  set (run := monitor_system Demo.flaky 61 6 1 blank).
  assert (E : exists df, run = (Returns df, snd run) /\
                         List.length (records df) = 6%nat).
  { vm_compute. eexists. split; reflexivity. }
  destruct E as [df [E Hn]].
  destruct (X7_run_transcript Demo.flaky 61 6 1 blank df (snd run) E)
    as [[evs [Hlog Hp]] [_ [Hfail _]]].
  exists df, (snd run), evs. split; [exact E|]. split; [exact Hlog|].
  split; [exact Hp|]. split; [rewrite Hp, Hn; reflexivity|].
  apply Hfail; [reflexivity|]. apply fail_getInstance. reflexivity.
Defined.

(** ** The status line and the power reading *)

Lemma append_cancel_l (a x y : string) :
  (a ++ x)%string = (a ++ y)%string -> x = y.
Proof.
  induction a as [ | c a IH]; cbn; intros H; [exact H|].
  inversion H. now apply IH.
Qed.

Lemma watts_is_no_placeholder (f : string) :
  ((f ++ "W") ++ "]")%string <> ("N/A" ++ "]")%string.
Proof.
  destruct f as [ | c1 [ | c2 [ | c3 [ | c4 f]]]]; cbn; intros H;
    try discriminate H.
  inversion H.
  match goal with
  | Hx : _ = EmptyString |- _ => destruct f; discriminate Hx
  end.
Qed.

(** X8: a power reading that is present is displayed as a number of watts
    and never as the placeholder, whatever the rendering of floats; unlike
    utilization and temperature, for which a reading of 0 is displayed as the
    placeholder, a power of 0 changes the status line. *)
Theorem X8_power_is_displayed (h : host) (cpu : Q) (u tp : option Q) (p : Q) :
  power_display h (Some p) <> "N/A"%string /\
  (forall v, power_display h v = "N/A"%string <-> v = None) /\
  status_line h cpu u tp (Some p) <> status_line h cpu u tp None /\
  status_line h cpu (Some 0) tp (Some p) = status_line h cpu None tp (Some p).
Proof.
  assert (Hp : forall q, power_display h (Some q) <> "N/A"%string).
  { intros q H. apply (watts_is_no_placeholder (format_f h 1 q)).
    unfold power_display in H. now rewrite H. }
  split; [apply Hp|]. split; [|split].
  - intros [q | ]; split; intros H; try reflexivity; try discriminate H.
    now elim (Hp q).
  - unfold status_line. intros H.
    repeat (apply append_cancel_l in H).
    apply (watts_is_no_placeholder (format_f h 1 p)). exact H.
  - unfold status_line. now rewrite (or_NA_falsy h (Some 0)).
Qed.

(** ** The CPU line of the report *)




(** ** A whole run of [main] *)

Lemma prompts_app (l1 l2 : list event) :
  prompts (l1 ++ l2) = prompts l1 ++ prompts l2.
Proof. apply flat_map_app. Qed.

Lemma exports_app (l1 l2 : list event) :
  exports (l1 ++ l2) = exports l1 ++ exports l2.
Proof. apply flat_map_app. Qed.

Lemma adapter_events_no_prompt (l : list event) :
  Forall adapter_event l -> prompts l = [].
Proof.
  induction 1 as [ | ev l Hev _ IH]; [reflexivity|].
  destruct ev; try contradiction; exact IH.
Qed.

Lemma tick_events_quiet (h : host) (interval : Q) (k : nat) (t : Q) :
  prompts (tick_events h interval k t) = [] /\
  exports (tick_events h interval k t) = [].
Proof.
  unfold tick_events. rewrite !prompts_app, !exports_app.
  rewrite (adapter_events_no_prompt _ (gpu_events_adapter h k)).
  destruct (adapter_events_silent _ (gpu_events_adapter h k))
    as [_ [_ [_ ->]]].
  split; reflexivity.
Qed.

(** The prompt, as one function of the lowered answer. *)
Lemma save_prompt_run (h : host) (df : DataFrame) (w : world) :
  save_prompt h df w =
  (Returns tt,
   mkWorld (now w)
     (log w ++
      Input save_question ::
      (if String.eqb (lower (response h)) "s"
       then [Strftime "%Y%m%d_%H%M%S" (now w);
             ToCsv (csv_filename (strftime_Ymd_HMS (localtime h (now w))))
                   (csv_lines h df);
             Print (("Datos guardados en " ++
                     csv_filename (strftime_Ymd_HMS (localtime h (now w))))
                    ++ nl)%string]
       else []))).
Proof.
  unfold save_prompt, input, to_csv, time_strftime.
  cbv [bind emit ret print]. cbn [now log]. fold save_question.
  destruct (String.eqb (lower (response h)) "s"); cbv beta iota; cbn [now log];
    repeat rewrite <- app_assoc; reflexivity.
Qed.

(** X10: with the GPU capability present [main] runs to its end and raises
    nothing: it monitors for 20 seconds at least, reports on a collection
    that is not empty, asks its question once, and writes one file, holding
    the header and one row per sample of that collection, when the answer
    lowers to s, and no file otherwise. *)
Theorem X10_main_completes (h : host) (fuel : nat) (w : world) :
  amd_gpu_available h = true ->
  nonneg_latency h ->
  (enough_fuel 20 <= fuel)%nat ->
  exists df w1 w' evs,
    monitor_system h fuel 20 1 (mkWorld (now w) (log w ++ main_banner)) =
    (Returns df, w1) /\
    main h fuel w = (Returns tt, w') /\
    log w' = log w ++ evs /\
    20 <= now w' - now w /\
    records df <> [] /\
    prompts evs = [save_question] /\
    exports evs =
      (if String.eqb (lower (response h)) "s"
       then [(csv_filename (strftime_Ymd_HMS (localtime h (now w'))),
              csv_lines h df)]
       else []) /\
    List.length (csv_lines h df) = S (List.length (records df)).
Proof.
  intros Hav Hlat Hfuel.
  destruct (main_with_gpu h fuel w Hav Hlat Hfuel)
    as [s0 [rest [w1 [w2 [Hrun [Hrep Hmain]]]]]].
  pose proof Hrun as Hinv.
  apply (monitor_system_inv h fuel 20 1
           (mkWorld (now w) (log w ++ main_banner))
           (fun _ evs _ => prompts evs = [] /\ exports evs = [])) in Hinv.
  2:{ split; reflexivity. }
  2:{ intros data evs t [Hp He] _ k.
      destruct (tick_events_quiet h 1 k t) as [Hp' He'].
      now rewrite prompts_app, exports_app, Hp, He, Hp', He'. }
  destruct Hinv as [evs1 [Hlog1 [[Hp1 He1] Hend]]]. cbn [now log] in *.
  rewrite (report_spec h s0 rest w1 Hav) in Hrep. cbv zeta in Hrep.
  inversion Hrep as [Hw2]. clear Hrep.
  rewrite save_prompt_run in Hmain.
  exists (pd_DataFrame (s0 :: rest)), w1. eexists. eexists.
  split; [exact Hrun|]. split; [exact Hmain|].
  rewrite <- Hw2. cbn [now log]. rewrite Hlog1.
  split; [repeat rewrite <- app_assoc; reflexivity|].
  split; [lra|]. split; [discriminate|].
  rewrite !prompts_app, !exports_app, Hp1, He1.
  split; [|split].
  - destruct (String.eqb (lower (response h)) "s"); reflexivity.
  - destruct (String.eqb (lower (response h)) "s"); reflexivity.
  - unfold csv_lines. cbn [List.length]. now rewrite length_map.
Qed.

(** [main] on the steady machine, a capital S at the prompt. *)
Lemma X10_main_completes_witness :
  amd_gpu_available Demo.shouting = true /\
  nonneg_latency Demo.shouting /\
  (enough_fuel 20 <= 201)%nat /\
  exists w' evs,
    main Demo.shouting 201 blank = (Returns tt, w') /\
    log w' = log blank ++ evs /\
    prompts evs = [save_question] /\
    List.length (exports evs) = 1%nat.
Proof.
  assert (Hlat : nonneg_latency Demo.shouting).
  { intros k. cbn. discriminate. }
  assert (Hfuel : (enough_fuel 20 <= 201)%nat).
  { vm_compute. apply le_n. }
  split; [reflexivity|]. split; [exact Hlat|]. split; [exact Hfuel|].
  destruct (X10_main_completes Demo.shouting 201 blank eq_refl Hlat Hfuel)
    as [df [w1 [w' [evs [_ [Hmain [Hlog [_ [_ [Hp [He _]]]]]]]]]]].
  exists w', evs. split; [exact Hmain|]. split; [exact Hlog|].
  split; [exact Hp|]. rewrite He. reflexivity.
Defined.

(** ** The cadence of the stamps *)

Lemma gaps_snoc (l : list Q) (x : Q) :
  l <> [] -> gaps (l ++ [x]) = gaps l ++ [x - last l 0].
Proof.
  induction l as [ | a l IH]; intros Hne; [now elim Hne|].
  destruct l as [ | b l]; [reflexivity|].
  change (gaps ((a :: b :: l) ++ [x]))
    with ((b - a) :: gaps ((b :: l) ++ [x])).
  rewrite IH by discriminate. reflexivity.
Qed.

(** X11: the samples of a run are stamped in chronological order and never
    closer to one another than a tenth of a second, nor than the interval
    when that is longer; when the GPU reads take no time and the interval is
    a tenth of a second at least, consecutive stamps are exactly one interval
    apart. *)
Theorem X11_cadence (h : host) (fuel : nat) (duration interval : Q)
    (w : world) (df : DataFrame) (w' : world) :
  nonneg_latency h ->
  monitor_system h fuel duration interval w = (Returns df, w') ->
  exists evs,
    log w' = log w ++ evs /\
    Forall (fun g => 0.1 <= g /\ (0.1 <= interval -> interval <= g))
           (gaps (stamps evs)) /\
    (instant_gpu h -> 0.1 <= interval ->
     Forall (fun g => g == interval) (gaps (stamps evs))).
Proof.
  intros Hlat Hrun.
  apply (monitor_system_inv h fuel duration interval w
    (fun _ evs t =>
       Forall (fun g => 0.1 <= g /\ (0.1 <= interval -> interval <= g))
              (gaps (stamps evs)) /\
       (instant_gpu h -> 0.1 <= interval ->
        Forall (fun g => g == interval) (gaps (stamps evs))) /\
       (stamps evs <> [] ->
        last (stamps evs) 0 + py_max 0 (interval - 0.1) == t))) in Hrun.
  - destruct Hrun as [evs [Hlog [[H1 [H2 _]] _]]]. now exists evs.
  - split; [constructor|]. split; [constructor|]. intros Hne. now elim Hne.
  - intros data evs t [H1 [H2 H3]] _ k. clearbody k.
    rewrite stamps_app, tick_events_stamps.
    pose proof (Hlat k) as Hk.
    pose proof (py_max_nonneg (interval - 0.1)) as Hpm.
    destruct (stamps evs) as [ | s0 ss] eqn:Est.
    + cbn [app gaps last]. split; [constructor|]. split; [constructor|].
      intros _. unfold tick_end. reflexivity.
    + assert (Hne : s0 :: ss <> []) by discriminate.
      specialize (H3 Hne). rewrite gaps_snoc by exact Hne.
      rewrite last_last. split; [|split].
      * apply Forall_app. split; [exact H1|]. constructor; [|constructor].
        unfold stamp_instant. split; [lra|].
        intros Hi. rewrite (py_max_pace interval Hi) in H3. lra.
      * intros Hgpu Hi. apply Forall_app. split; [now apply H2|].
        constructor; [|constructor].
        unfold stamp_instant. rewrite (Hgpu k).
        rewrite (py_max_pace interval Hi) in H3. lra.
      * intros _. unfold tick_end. reflexivity.
Qed.

(** The machine whose reads take a millisecond: stamps 1.001 s apart. *)
Lemma X11_cadence_witness :
  nonneg_latency Demo.unhurried /\
  exists df w' evs,
    monitor_system Demo.unhurried 31 3 1 blank = (Returns df, w') /\
    log w' = log blank ++ evs /\
    Forall (fun g => 0.1 <= g /\ (0.1 <= 1 -> 1 <= g)) (gaps (stamps evs)) /\
    List.length (records df) = 3%nat.
Proof.
  assert (Hlat : nonneg_latency Demo.unhurried).
  { intros k. cbn. discriminate. }
  split; [exact Hlat|].
  set (run := monitor_system Demo.unhurried 31 3 1 blank).
  assert (E : exists df, run = (Returns df, snd run) /\
                         List.length (records df) = 3%nat).
  { vm_compute. eexists. split; reflexivity. }
  destruct E as [df [E Hn]].
  destruct (X11_cadence Demo.unhurried 31 3 1 blank df (snd run) Hlat E)
    as [evs [Hlog [Hg _]]].
  exists df, (snd run), evs. auto.
Defined.

(** ** The shape of the timestamps *)

Lemma pad2_digits (n : nat) :
  (n < 100)%nat ->
  exists a b, is_digit a /\ is_digit b /\
              pad2 n = String a (String b EmptyString).
Proof.
  intros H.
  do 100 (destruct n as [ | n];
          [eexists; eexists; split; [|split; [|reflexivity]];
           unfold is_digit; cbn; lia|]).
  lia.
Qed.

Lemma strftime_HMS_shape (tm : struct_time) :
  two_digit_time tm -> clock_text (strftime_HMS tm).
Proof.
  intros [HH [HM HS]].
  destruct (pad2_digits _ HH) as [a [b [Ha [Hb Eh]]]].
  destruct (pad2_digits _ HM) as [c [d [Hc [Hd Em]]]].
  destruct (pad2_digits _ HS) as [e [f [He [Hf Es]]]].
  exists a, b, c, d, e, f. unfold strftime_HMS. rewrite Eh, Em, Es.
  repeat (split; [assumption|]). reflexivity.
Qed.

(** X12: on a host whose local time has hours, minutes and seconds of two
    digits, every sample of a run carries a timestamp of the shape dd:dd:dd:
    eight characters, digits but for the colons at the third and the sixth
    place. *)
Theorem X12_timestamp_shape (h : host) (fuel : nat) (duration interval : Q)
    (w : world) (df : DataFrame) (w' : world) :
  (forall t, two_digit_time (localtime h t)) ->
  monitor_system h fuel duration interval w = (Returns df, w') ->
  Forall (fun s => clock_text (timestamp s) /\
                   String.length (timestamp s) = 8%nat) (records df).
Proof.
  intros Htime Hrun.
  apply (monitor_system_inv h fuel duration interval w
    (fun data _ _ =>
       Forall (fun s => clock_text (timestamp s) /\
                        String.length (timestamp s) = 8%nat) data)) in Hrun.
  - destruct Hrun as [_ [_ [HP _]]]. exact HP.
  - constructor.
  - intros data evs t HP _ k. apply Forall_app. split; [exact HP|].
    constructor; [|constructor].
    rewrite sample_of_timestamp. unfold stamp_text.
    pose proof (strftime_HMS_shape _ (Htime (stamp_instant h k t))) as Hs.
    split; [exact Hs|].
    destruct Hs as [a [b [c [d [e [f [_ [_ [_ [_ [_ [_ ->]]]]]]]]]]]].
    reflexivity.
Qed.

(** The clock of the examples never leaves two digits. *)
Lemma X12_timestamp_shape_witness :
  (forall t, two_digit_time (localtime Demo.steady t)) /\
  exists df w',
    monitor_system Demo.steady 21 2 1 blank = (Returns df, w') /\
    Forall (fun s => clock_text (timestamp s) /\
                     String.length (timestamp s) = 8%nat) (records df).
Proof.
  assert (Htime : forall t, two_digit_time (localtime Demo.steady t)).
  { intros t. unfold two_digit_time. cbn [localtime Demo.steady Demo.machine
      Demo.clock tm_hour tm_min tm_sec].
    set (s := Z.to_nat (Qfloor t)).
    pose proof (Nat.mod_upper_bound (s / 3600) 24).
    pose proof (Nat.mod_upper_bound (s / 60) 60).
    pose proof (Nat.mod_upper_bound s 60). lia. }
  split; [exact Htime|].
  set (run := monitor_system Demo.steady 21 2 1 blank).
  assert (E : exists df, run = (Returns df, snd run)).
  { vm_compute. eexists. reflexivity. }
  destruct E as [df E].
  exists df, (snd run). split; [exact E|].
  exact (X12_timestamp_shape Demo.steady 21 2 1 blank df (snd run) Htime E).
Defined.
